(** * rubrik_cdm: the Connect and Bootstrap classes of the Rubrik SDK for Python

    A shallow embedding of [rubrik_cdm/rubrik_cdm.py]: the constructor of
    [Connect], its header builders, the endpoint validators of [Connect] and
    [Bootstrap], and the submit-and-poll workflow [Bootstrap.setup_cluster].

    Conventions of the embedding.
    - Python text is a [string]; a [str] stands for its UTF-8 byte sequence,
      on which [.encode()] is the identity and on which the tests against
      the one-byte characters "/" and "=" read as they do on code points.
    - Python values that reach the code from callers or from parsed JSON are
      [pyval]s; a dictionary is the list of its items in insertion order.
    - A call that may raise returns a [result]; the HTTP transport ([Api.get],
      [Api.post]) and [time.sleep] are the environment: replies are consumed
      from a list and every call is recorded in a trace of [event]s.
    - Debug logging ([self.log]) has no bearing on results and is left out. *)

From Stdlib Require Import String Ascii List ZArith NArith Lia Bool DecimalString.
Import ListNotations.
Local Open Scope list_scope.
Local Open Scope string_scope.

(** ** Python values and exceptions *)

#[local] Set Warnings "-register-all".

Inductive pyval : Type :=
| PNone
| PBool (b : bool)
| PInt (z : Z)
| PStr (s : string)
| PList (l : list pyval)
| PDict (d : list (string * pyval)).

(** The exception classes the module raises or meets.  The first three come
    from [rubrik_cdm.exceptions]; the others are Python's own. *)
Inductive exn_class : Type :=
| InvalidParameterException
| RubrikException
| APICallException
| IndexError
| KeyError
| TypeError
| AttributeError.

(** An exception is its class and the text [str(e)] yields. *)
Record exn : Type := Exn { exn_cls : exn_class; exn_msg : string }.

Definition exn_class_eqb (a b : exn_class) : bool :=
  match a, b with
  | InvalidParameterException, InvalidParameterException
  | RubrikException, RubrikException
  | APICallException, APICallException
  | IndexError, IndexError
  | KeyError, KeyError
  | TypeError, TypeError
  | AttributeError, AttributeError => true
  | _, _ => false
  end.

Inductive result (A : Type) : Type :=
| Ok (a : A)
| Raise (e : exn).
Arguments Ok {A} a.
Arguments Raise {A} e.

Definition bind {A B : Type} (r : result A) (k : A -> result B) : result B :=
  match r with
  | Ok a => k a
  | Raise e => Raise e
  end.

Notation "x <- r ;; k" := (bind r (fun x => k))
  (at level 61, r at next level, right associativity).
Notation "r ;;; k" := (bind r (fun _ => k))
  (at level 61, right associativity).

Definition is_raise {A : Type} (r : result A) (c : exn_class) : bool :=
  match r with
  | Raise e => exn_class_eqb (exn_cls e) c
  | Ok _ => false
  end.

(** ** Text helpers *)

(** The double-quote character, for messages that quote a parameter name. *)
Definition dq : string := String (ascii_of_nat 34) EmptyString.

(** [needle in haystack] on text. *)
Fixpoint str_contains (needle haystack : string) : bool :=
  if String.prefix needle haystack then true
  else match haystack with
       | EmptyString => false
       | String _ rest => str_contains needle rest
       end.

(** [s[i]] for [i >= 0] and [s[-k]] for [k >= 1]; out of range is Python's
    [IndexError: string index out of range]. *)
Definition index_error : exn := Exn IndexError "string index out of range".

Definition str_index (s : string) (i : Z) : result ascii :=
  let n := Z.of_nat (String.length s) in
  let j := if (i <? 0)%Z then (n + i)%Z else i in
  if ((j <? 0) || (n <=? j))%Z then Raise index_error
  else match String.get (Z.to_nat j) s with
       | Some c => Ok c
       | None => Raise index_error
       end.

(** [v == s] for a text literal [s]. *)
Definition py_eq_str (v : pyval) (s : string) : bool :=
  match v with
  | PStr t => String.eqb t s
  | _ => false
  end.

(** [v in l] for a list of text literals. *)
Definition py_in_strs (v : pyval) (l : list string) : bool :=
  existsb (py_eq_str v) l.

(** ** Dictionaries *)

Definition dict : Type := list (string * pyval).

Fixpoint dict_get (k : string) (d : dict) : option pyval :=
  match d with
  | [] => None
  | (k', v) :: rest => if String.eqb k k' then Some v else dict_get k rest
  end.

(** [d[k] = v]: an existing key keeps its place, a new one goes last. *)
Fixpoint dict_set (k : string) (v : pyval) (d : dict) : dict :=
  match d with
  | [] => [(k, v)]
  | (k', v') :: rest =>
      if String.eqb k k' then (k, v) :: rest else (k', v') :: dict_set k v rest
  end.

(** [v[k]] for a text key [k].  The text of a [KeyError] is the [repr] of the
    key, the key between single quotes for the plain keys the module uses;
    the text of a [TypeError] goes by the type of [v] (as Python 3.11 words
    it). *)
Definition py_getitem (v : pyval) (k : string) : result pyval :=
  match v with
  | PDict d =>
      match dict_get k d with
      | Some x => Ok x
      | None => Raise (Exn KeyError ("'" ++ k ++ "'"))
      end
  | PNone => Raise (Exn TypeError "'NoneType' object is not subscriptable")
  | PBool _ => Raise (Exn TypeError "'bool' object is not subscriptable")
  | PInt _ => Raise (Exn TypeError "'int' object is not subscriptable")
  | PStr _ => Raise (Exn TypeError "string indices must be integers, not 'str'")
  | PList _ =>
      Raise (Exn TypeError "list indices must be integers or slices, not str")
  end.

(** ** Endpoint validation: [Connect._api_validation], [Bootstrap._api_validation]

    The two static methods differ in [valid_api_versions] only; the shared
    body takes the list and its rendering in the error message. *)

Definition invalid_parameter (msg : string) : exn :=
  Exn InvalidParameterException msg.

Definition api_validation_with (valid_api_versions : list string)
    (versions_text : string) (api_version api_endpoint : pyval) : result unit :=
  if negb (py_in_strs api_version valid_api_versions) then
    Raise (invalid_parameter ("Enter a valid API version " ++ versions_text ++ "."))
  else
    match api_endpoint with
    | PStr ep =>
        c0 <- str_index ep 0 ;;
        if negb (Ascii.eqb c0 "/") then
          Raise (invalid_parameter
                   "The API Endpoint should begin with '/'. (ex: /cluster/me)")
        else
          c1 <- str_index ep (-1) ;;
          if Ascii.eqb c1 "/" then
            c2 <- str_index ep (-2) ;;
            if negb (Ascii.eqb c2 "=") then
              Raise (invalid_parameter
                       "Error: The API Endpoint should not end with '/' unless proceeded by '='. (ex. /cluster/me or /fileset/snapshot/<id>/browse?path=/)")
            else Ok tt
          else Ok tt
    | _ => Raise (invalid_parameter "The API Endpoint must be a string.")
    end.

Module Connect_validation.

Definition valid_api_versions : list string := ["v1"; "v2"; "internal"].

Definition _api_validation : pyval -> pyval -> result unit :=
  api_validation_with valid_api_versions "['v1', 'v2', 'internal']".

End Connect_validation.

Module Bootstrap_validation.

Definition valid_api_versions : list string := ["v1"; "internal"].

Definition _api_validation : pyval -> pyval -> result unit :=
  api_validation_with valid_api_versions "['v1', 'internal']".

End Bootstrap_validation.

(** ** [base64.b64encode] and [bytes.decode]

    The standard alphabet with "=" padding (RFC 4648, section 4), on the
    byte sequence of the text. *)

Definition b64_alphabet : string :=
  "ABCDEFGHIJKLMNOPQRSTUVWXYZabcdefghijklmnopqrstuvwxyz0123456789+/".

Definition b64_char (i : N) : ascii :=
  match String.get (N.to_nat i) b64_alphabet with
  | Some c => c
  | None => "="%char
  end.

Fixpoint b64encode (s : string) : string :=
  match s with
  | EmptyString => EmptyString
  | String a EmptyString =>
      let x := N_of_ascii a in
      String (b64_char (x / 4))
        (String (b64_char ((x mod 4) * 16)) "==")
  | String a (String b EmptyString) =>
      let x := N_of_ascii a in
      let y := N_of_ascii b in
      String (b64_char (x / 4))
        (String (b64_char ((x mod 4) * 16 + y / 16))
           (String (b64_char ((y mod 16) * 4)) "="))
  | String a (String b (String c rest)) =>
      let x := N_of_ascii a in
      let y := N_of_ascii b in
      let z := N_of_ascii c in
      String (b64_char (x / 4))
        (String (b64_char ((x mod 4) * 16 + y / 16))
           (String (b64_char ((y mod 16) * 4 + z / 64))
              (String (b64_char (z mod 64)) (b64encode rest))))
  end%N.

(** ** The [Connect] class *)

(** [os.environ.get]. *)
Definition environ : Type := string -> option string.

(** The attributes [__init__] assigns.  [api_token] is always assigned
    ([None] stands for Python's [None]); [username] and [password] are
    assigned on the path without a token only, and [None] there stands for
    an attribute that was never set. *)
Record Connect : Type := mkConnect {
  node_ip : string;
  api_token : option string;
  username : option string;
  password : option string
}.

Definition or_environ (env : environ) (arg : option string) (var : string)
    (missing : string) : result string :=
  match arg with
  | None =>
      match env var with
      | None => Raise (invalid_parameter missing)
      | Some v => Ok v
      end
  | Some v => Ok v
  end.

(** [Connect.__init__]; [enable_logging] only sets the process log level. *)
Definition Connect_init (env : environ)
    (node_ip username password api_token : option string) : result Connect :=
  ip <- or_environ env node_ip "rubrik_cdm_node_ip"
          "The Rubrik CDM Node IP has not been provided." ;;
  match api_token with
  | None =>
      match env "rubrik_cdm_token" with
      | None =>
          u <- or_environ env username "rubrik_cdm_username"
                 "The Rubrik CDM Username or an API Token has not been provided." ;;
          p <- or_environ env password "rubrik_cdm_password"
                 "The Rubrik CDM Password or an API Token has not been provided." ;;
          Ok (mkConnect ip None (Some u) (Some p))
      | Some tok => Ok (mkConnect ip (Some tok) None None)
      end
  | Some tok => Ok (mkConnect ip (Some tok) None None)
  end.

(** Reading an attribute of [self]. *)
Definition getattr (name : string) (slot : option string) : result string :=
  match slot with
  | Some v => Ok v
  | None =>
      Raise (Exn AttributeError
               ("'Connect' object has no attribute '" ++ name ++ "'"))
  end.

(** [Connect._authorization_header]. *)
Definition _authorization_header (self : Connect) : result dict :=
  match api_token self with
  | None =>
      u <- getattr "username" (username self) ;;
      p <- getattr "password" (password self) ;;
      let credentials := u ++ ":" ++ p in
      let authorization := b64encode credentials in
      Ok [ ("Content-Type", PStr "application/json");
           ("Accept", PStr "application/json");
           ("Authorization", PStr ("Basic " ++ authorization));
           ("User-Agent", PStr "Rubrik Python SDK v1.0.13") ]
  | Some tok =>
      Ok [ ("Content-Type", PStr "application/json");
           ("Accept", PStr "application/json");
           ("Authorization", PStr ("Bearer " ++ tok));
           ("User-Agent", PStr "Rubrik Python SDK v1.0.13") ]
  end.

(** [Connect._header] and [Bootstrap._header]. *)
Definition _header : dict :=
  [ ("Content-Type", PStr "application/json");
    ("Accept", PStr "application/json") ].

(** The two credential forms of a connection. *)
Definition basic_form (c : Connect) : bool :=
  match api_token c, username c, password c with
  | None, Some _, Some _ => true
  | _, _, _ => false
  end.

Definition token_form (c : Connect) : bool :=
  match api_token c, username c, password c with
  | Some _, None, None => true
  | _, _, _ => false
  end.

(** The methods [Connect] defines in this module, as calls on an object:
    each returns the object it leaves behind and its result. *)
Inductive method : Type :=
| M_log (log_message : string)
| M_authorization_header
| M_header
| M_api_validation (api_version api_endpoint : pyval).

Definition invoke (m : method) (self : Connect) : Connect * result pyval :=
  match m with
  | M_log _ => (self, Ok PNone)
  | M_authorization_header =>
      (self, h <- _authorization_header self ;; Ok (PDict h))
  | M_header => (self, Ok (PDict _header))
  | M_api_validation v e =>
      (self, Connect_validation._api_validation v e ;;; Ok PNone)
  end.

Fixpoint invoke_all (ms : list method) (self : Connect) : Connect :=
  match ms with
  | [] => self
  | m :: rest => invoke_all rest (fst (invoke m self))
  end.

(** ** The [Bootstrap] class *)

(** What the transport hands back for one call: the parsed JSON body, or
    the exception the call raises. *)
Inductive reply : Type :=
| Reply (body : pyval)
| Fail (e : exn).

(** The calls [setup_cluster] makes on its environment. *)
Inductive event : Type :=
| EvPost (api_version api_endpoint : string) (config timeout : pyval)
         (authentication : bool)
| EvGet (api_version api_endpoint : string) (timeout : pyval)
        (authentication : bool)
| EvSleep (seconds : Z).

(** How a run stands once the replies it was given are used up: it has
    returned, it has raised, or it is still waiting on the transport. *)
Inductive outcome : Type :=
| Returned (v : pyval)
| Raised (e : exn)
| Pending.

Record setup_args : Type := mkArgs {
  cluster_name : pyval;
  admin_email : pyval;
  admin_password : pyval;
  management_gateway : pyval;
  management_subnet_mask : pyval;
  node_config : pyval;
  enable_encryption : pyval;
  dns_search_domains : pyval;
  dns_nameservers : pyval;
  ntp_servers : pyval;
  wait_for_completion : bool;
  timeout : pyval
}.

(** The keyword defaults of [setup_cluster]. *)
Definition default_args (cluster_name admin_email admin_password
    management_gateway management_subnet_mask : pyval) : setup_args :=
  mkArgs cluster_name admin_email admin_password management_gateway
    management_subnet_mask PNone (PBool true) PNone PNone PNone true (PInt 30).

Definition with_node_config (a : setup_args) (nc : pyval) : setup_args :=
  mkArgs (cluster_name a) (admin_email a) (admin_password a)
    (management_gateway a) (management_subnet_mask a) nc (enable_encryption a)
    (dns_search_domains a) (dns_nameservers a) (ntp_servers a)
    (wait_for_completion a) (timeout a).

(** [if x is None: x = default  elif isinstance(x, list) is not True: raise]. *)
Definition list_or_default (x default : pyval) (name : string) : result pyval :=
  match x with
  | PNone => Ok default
  | PList _ => Ok x
  | _ =>
      Raise (invalid_parameter
               ("You must provide a valid list for " ++ dq ++ name ++ dq ++ "."))
  end.

(** The body of the loop over [node_config.items()]. *)
Definition node_entry (management_subnet_mask management_gateway node_ip : pyval)
    : pyval :=
  PDict [ ("managementIpConfig",
           PDict (dict_set "address" node_ip
                    (dict_set "gateway" management_gateway
                       (dict_set "netmask" management_subnet_mask [])))) ].

Fixpoint node_configs (management_subnet_mask management_gateway : pyval)
    (items : dict) (acc : dict) : dict :=
  match items with
  | [] => acc
  | (node_name, node_ip) :: rest =>
      node_configs management_subnet_mask management_gateway rest
        (dict_set node_name
           (node_entry management_subnet_mask management_gateway node_ip) acc)
  end.

(** Argument checks, defaulting and the construction of [bootstrap_config]. *)
Definition bootstrap_config (a : setup_args) : result pyval :=
  match node_config a with
  | PDict items =>
      dns_search_domains <-
        list_or_default (dns_search_domains a) (PList []) "dns_search_domains" ;;
      dns_nameservers <-
        list_or_default (dns_nameservers a) (PList [PStr "8.8.8.8"])
          "dns_nameservers" ;;
      ntp_servers <-
        list_or_default (ntp_servers a) (PList [PStr "pool.ntp.org"])
          "ntp_servers" ;;
      Ok (PDict
            [ ("enableSoftwareEncryptionAtRest", enable_encryption a);
              ("name", cluster_name a);
              ("dnsNameservers", dns_nameservers);
              ("dnsSearchDomains", dns_search_domains);
              ("ntpServers", ntp_servers);
              ("adminUserInfo",
               PDict [ ("password", admin_password a);
                       ("emailAddress", admin_email a);
                       ("id", PStr "admin") ]);
              ("nodeConfigs",
               PDict (node_configs (management_subnet_mask a)
                        (management_gateway a) items [])) ])
  | _ =>
      Raise (invalid_parameter
               ("You must provide a valid dictionary for "
                ++ dq ++ "node_config" ++ dq ++ "."))
  end.

Definition connection_refused : string :=
  "Failed to establish a new connection: [Errno 111] Connection refused".

Definition already_bootstrapped : string :=
  "Cannot bootstrap from an already bootstrapped node".

Definition no_change_required : string :=
  "No change required. The Rubrik cluster is already bootstrapped.".

Definition unable_to_connect : exn :=
  Exn APICallException "Unable to establish a connection to the Rubrik cluster.".

(** Where the first [while True] leaves the run. *)
Inductive submitted : Type :=
| Accepted (api_request : pyval)
| Stopped (o : outcome).

Definition post_event (config timeout : pyval) : event :=
  EvPost "internal" "/cluster/me/bootstrap" config timeout false.

(** The first [while True]: one iteration for each reply to the POST.  The
    body opens with [number_of_attempts = 1], so the counter is bound anew in
    every iteration. *)
Fixpoint submit (config timeout : pyval) (posts : list reply)
    : submitted * list event :=
  match posts with
  | [] => (Stopped Pending, [])
  | r :: rest =>
      let number_of_attempts := 1%Z in
      match r with
      | Reply api_request => (Accepted api_request, [post_event config timeout])
      | Fail bootstrap_error =>
          if exn_class_eqb (exn_cls bootstrap_error) APICallException then
            if str_contains connection_refused (exn_msg bootstrap_error) then
              let number_of_attempts := (number_of_attempts + 1)%Z in
              if (number_of_attempts =? 12)%Z then
                (Stopped (Raised unable_to_connect),
                 [post_event config timeout; EvSleep 30])
              else
                let (s, tr) := submit config timeout rest in
                (s, post_event config timeout :: EvSleep 30 :: tr)
            else if str_contains already_bootstrapped (exn_msg bootstrap_error)
            then
              (Stopped (Returned (PStr no_change_required)),
               [post_event config timeout])
            else
              (Stopped (Raised (Exn RubrikException (exn_msg bootstrap_error))),
               [post_event config timeout])
          else (Stopped (Raised bootstrap_error), [post_event config timeout])
      end
  end.

Section Bootstrap.

(** Python's built-in [str], which the module reaches through
    ["{}".format(x)]. *)
Variable py_str : pyval -> string.

Definition status_event (request_id : pyval) : event :=
  EvGet "internal" ("/cluster/me/bootstrap?request_id=" ++ py_str request_id)
    (PInt 15) false.

(** [Bootstrap.status] with its default timeout, on the reply it gets. *)
Definition status (request_id : pyval) (r : reply) : result pyval * event :=
  (match r with Reply body => Ok body | Fail e => Raise e end,
   status_event request_id).

(** The second [while True]: one iteration for each reply to the GET. *)
Fixpoint poll (request_id : pyval) (gets : list reply)
    : outcome * list event :=
  match gets with
  | [] => (Pending, [])
  | r :: rest =>
      let (res, ev) := status request_id r in
      match res with
      | Raise e => (Raised e, [ev])
      | Ok status =>
          match py_getitem status "status" with
          | Raise e => (Raised e, [ev])
          | Ok st =>
              if py_eq_str st "IN_PROGRESS" then
                let (o, tr) := poll request_id rest in
                (o, ev :: EvSleep 30 :: tr)
              else if py_eq_str st "FAILURE" || py_eq_str st "FAILED" then
                match py_getitem status "message" with
                | Raise e => (Raised e, [ev])
                | Ok message =>
                    (Raised (Exn RubrikException (py_str message)), [ev])
                end
              else (Returned status, [ev])
          end
      end
  end.

(** [Bootstrap.setup_cluster], run against the replies to its POSTs and to
    its GETs. *)
Definition setup_cluster (a : setup_args) (posts gets : list reply)
    : outcome * list event :=
  match bootstrap_config a with
  | Raise e => (Raised e, [])
  | Ok config =>
      match submit config (timeout a) posts with
      | (Stopped o, tr) => (o, tr)
      | (Accepted api_request, tr) =>
          match py_getitem api_request "id" with
          | Raise e => (Raised e, tr)
          | Ok request_id =>
              if wait_for_completion a then
                let (o, tr') := poll request_id gets in (o, (tr ++ tr')%list)
              else (Returned api_request, tr)
          end
      end
  end.

End Bootstrap.

(** Counting the calls in a trace. *)
Definition is_post (e : event) : bool :=
  match e with EvPost _ _ _ _ _ => true | _ => false end.
Definition is_get (e : event) : bool :=
  match e with EvGet _ _ _ _ => true | _ => false end.
Definition is_sleep (e : event) : bool :=
  match e with EvSleep _ => true | _ => false end.

Definition count_events (p : event -> bool) (tr : list event) : nat :=
  List.length (filter p tr).

(** An instance of the parameter [py_str] for running the workflow on
    concrete replies: Python's [str] on text, [None], booleans and integers.
    The [repr]-based rendering of lists and dictionaries is not modelled, and
    no run below renders one. *)
Definition py_str_scalar (v : pyval) : string :=
  match v with
  | PStr s => s
  | PNone => "None"
  | PBool true => "True"
  | PBool false => "False"
  | PInt z => NilZero.string_of_int (Z.to_int z)
  | PList _ | PDict _ => ""
  end.

(** ** Replies and traces, for stating what a run does *)

(** The POST failed with the connection-refused condition. *)
Definition refused (r : reply) : bool :=
  match r with
  | Fail e =>
      exn_class_eqb (exn_cls e) APICallException
      && str_contains connection_refused (exn_msg e)
  | Reply _ => false
  end.

(** The [status] field of a status payload is the given tag. *)
Definition status_is (tag : string) (payload : pyval) : bool :=
  match py_getitem payload "status" with
  | Ok st => py_eq_str st tag
  | Raise _ => false
  end.

Definition in_progress (payload : pyval) : bool :=
  status_is "IN_PROGRESS" payload.

Definition failed (payload : pyval) : bool :=
  status_is "FAILURE" payload || status_is "FAILED" payload.

Definition has_status (payload : pyval) : bool :=
  match py_getitem payload "status" with
  | Ok _ => true
  | Raise _ => false
  end.

(** One POST and one 30-second sleep for each refused attempt. *)
Definition retry_trace (config timeout : pyval) (refusals : list reply)
    : list event :=
  flat_map (fun _ => [post_event config timeout; EvSleep 30]) refusals.

(** One GET and one 30-second sleep for each payload still in progress. *)
Definition wait_trace (py_str : pyval -> string) (request_id : pyval)
    (payloads : list pyval) : list event :=
  flat_map (fun _ => [status_event py_str request_id; EvSleep 30]) payloads.

(** The path of nested keys [v[k1][k2]...]. *)
Fixpoint py_path (v : pyval) (keys : list string) : result pyval :=
  match keys with
  | [] => Ok v
  | k :: rest => x <- py_getitem v k ;; py_path x rest
  end.

(** The outcome is an exception of the given class. *)
Definition raises (c : exn_class) (o : outcome) : bool :=
  match o with
  | Raised e => exn_class_eqb (exn_cls e) c
  | _ => false
  end.

(** Sample arguments and replies, for running the workflow. *)
Definition sample_args : setup_args :=
  with_node_config
    (default_args (PStr "c1") (PStr "admin@example.com") (PStr "secret")
       (PStr "10.0.0.1") (PStr "255.255.255.0"))
    (PDict [("node1", PStr "1.2.3.4")]).

Definition refused_error : exn :=
  Exn APICallException
    "HTTPSConnectionPool(host='10.0.0.5', port=443): Max retries exceeded (Caused by NewConnectionError: Failed to establish a new connection: [Errno 111] Connection refused)".

Definition already_error : exn :=
  Exn APICallException "Cannot bootstrap from an already bootstrapped node".

Definition server_error : exn :=
  Exn APICallException "500 Server Error: Internal Server Error".

Definition accepted_reply : pyval := PDict [("id", PStr "1")].

Definition payload_of (tag : string) : pyval := PDict [("status", PStr tag)].

Definition failure_payload : pyval :=
  PDict [("status", PStr "FAILURE"); ("message", PStr "Node discovery failed")].

(** ** The endpoint contract, as the specification words it

    "Fails with an InvalidParameter error if: the version tag is not one of
    the supported set; the path is not a string; the path does not start with
    "/"; the path ends with "/" and the preceding character is not "="." *)

Definition first_char (s : string) : option ascii :=
  match s with
  | EmptyString => None
  | String c _ => Some c
  end.

Fixpoint last_char (s : string) : option ascii :=
  match s with
  | EmptyString => None
  | String c EmptyString => Some c
  | String _ rest => last_char rest
  end.

Fixpoint before_last_char (s : string) : option ascii :=
  match s with
  | EmptyString => None
  | String c (String _ EmptyString) => Some c
  | String _ rest => before_last_char rest
  end.

Definition opt_ascii_eqb (o : option ascii) (c : ascii) : bool :=
  match o with
  | Some d => Ascii.eqb d c
  | None => false
  end.

Definition contract_rejects (valid_api_versions : list string)
    (api_version api_endpoint : pyval) : bool :=
  negb (py_in_strs api_version valid_api_versions)
  || match api_endpoint with
     | PStr ep =>
         negb (opt_ascii_eqb (first_char ep) "/")
         || (opt_ascii_eqb (last_char ep) "/"
             && negb (opt_ascii_eqb (before_last_char ep) "="))
     | _ => true
     end.

(** The endpoints on which the validator indexes past the text. *)
Definition short_endpoint (api_endpoint : pyval) : bool :=
  py_eq_str api_endpoint "" || py_eq_str api_endpoint "/".

(** ** Where the constructor takes a value from

    An argument when it is given, its environment variable otherwise. *)
Definition resolve (env : environ) (arg : option string) (var : string)
    : option string :=
  match arg with
  | Some v => Some v
  | None => env var
  end.

Definition available (env : environ) (arg : option string) (var : string) : bool :=
  match resolve env arg var with
  | Some _ => true
  | None => false
  end.

(** ** Reading base64 back

    The inverse of [b64encode], for showing that the Authorization header
    loses nothing of the credentials. *)





(** ** What the arguments and the calls of [setup_cluster] look like *)

Definition is_dict (v : pyval) : bool :=
  match v with PDict _ => true | _ => false end.

Definition none_or_list (v : pyval) : bool :=
  match v with PNone | PList _ => true | _ => false end.

(** A call of the workflow as the source writes it: the POST of the given
    configuration with the given timeout, a GET of the status of some
    request with timeout 15, both on "internal" and unauthenticated, or a
    sleep of 30 seconds. *)
Definition call_ok (config timeout : pyval) (e : event) : Prop :=
  match e with
  | EvPost v ep c t auth =>
      v = "internal" /\ ep = "/cluster/me/bootstrap" /\ c = config
      /\ t = timeout /\ auth = false
  | EvGet v ep t auth =>
      v = "internal"
      /\ String.prefix "/cluster/me/bootstrap?request_id=" ep = true
      /\ t = PInt 15 /\ auth = false
  | EvSleep seconds => seconds = 30%Z
  end.

(** The entry of [nodeConfigs] for one item of [node_config]. *)
Definition node_item (mask gw : pyval) (item : string * pyval) : string * pyval :=
  (fst item, node_entry mask gw (snd item)).

(** The reply is a payload whose status reads IN_PROGRESS. *)
Definition reply_in_progress (r : reply) : bool :=
  match r with
  | Reply payload => in_progress payload
  | Fail _ => false
  end.

(** The sample arguments without [wait_for_completion]. *)
Definition sample_args_no_wait : setup_args :=
  mkArgs (PStr "c1") (PStr "admin@example.com") (PStr "secret") (PStr "10.0.0.1")
    (PStr "255.255.255.0") (PDict [("node1", PStr "1.2.3.4")]) (PBool true)
    PNone PNone PNone false (PInt 30).

Definition timeout_error : exn :=
  Exn APICallException "HTTPSConnectionPool(host='10.0.0.5', port=443): Read timed out.".

(** An error whose text holds both sentences the loop looks for. *)
Definition refused_and_already_error : exn :=
  Exn APICallException
    "Failed to establish a new connection: [Errno 111] Connection refused; Cannot bootstrap from an already bootstrapped node".

(** * Properties *)

(** ** Indexing *)

Lemma get_last_char (s : string) :
  String.get (String.length s - 1) s = last_char s.
Proof.
  induction s as [|a r IH]; [reflexivity|].
  cbn [String.length]. replace (S (String.length r) - 1)%nat with (String.length r) by lia.
  destruct r as [|b r']; [reflexivity|].
  cbn [String.length String.get last_char] in *.
  rewrite <- IH. now replace (S (String.length r') - 1)%nat with (String.length r') by lia.
Qed.

Lemma get_before_last_char (s : string) :
  (2 <= String.length s)%nat ->
  String.get (String.length s - 2) s = before_last_char s.
Proof.
  induction s as [|a r IH]; cbn [String.length]; [lia|].
  intros Hlen. destruct r as [|b [|c r']]; cbn [String.length] in *; [lia|reflexivity|].
  replace (S (S (S (String.length r'))) - 2)%nat with (S (String.length r')) by lia.
  change (before_last_char (String a (String b (String c r'))))
    with (before_last_char (String b (String c r'))).
  rewrite <- IH by lia.
  now replace (S (S (String.length r')) - 2)%nat with (String.length r') by lia.
Qed.

Lemma first_char_length (s : string) :
  first_char s = None <-> String.length s = 0%nat.
Proof. destruct s; cbn; split; congruence. Qed.

Lemma last_char_length (s : string) :
  last_char s = None <-> String.length s = 0%nat.
Proof.
  induction s as [|a r IH]; cbn [String.length]; [easy|].
  destruct r; [easy|]. change (last_char (String a (String a0 r))) with (last_char (String a0 r)).
  rewrite IH. cbn. split; congruence.
Qed.

Lemma before_last_char_length (s : string) :
  before_last_char s = None <-> (String.length s < 2)%nat.
Proof.
  induction s as [|a r IH]; cbn [String.length]; [cbn; split; [lia|easy]|].
  destruct r as [|b [|c r']]; cbn [String.length] in *.
  - cbn. split; [lia|easy].
  - cbn. split; [congruence|lia].
  - change (before_last_char (String a (String b (String c r'))))
      with (before_last_char (String b (String c r'))).
    rewrite IH. lia.
Qed.

Lemma str_index_first (s : string) :
  str_index s 0 =
  match first_char s with Some c => Ok c | None => Raise index_error end.
Proof.
  unfold str_index. destruct s as [|a r]; [reflexivity|].
  cbn [String.length first_char]. cbn [Z.ltb Z.compare].
  replace ((0 <? 0) || (Z.of_nat (S (String.length r)) <=? 0))%Z with false.
  - reflexivity.
  - symmetry. apply orb_false_iff. split; [reflexivity|]. apply Z.leb_gt. lia.
Qed.

Lemma str_index_last (s : string) :
  str_index s (-1) =
  match last_char s with Some c => Ok c | None => Raise index_error end.
Proof.
  unfold str_index. change (-1 <? 0)%Z with true. cbv iota.
  destruct (String.length s) as [|n] eqn:Hlen.
  - apply last_char_length in Hlen. now rewrite Hlen.
  - replace ((Z.of_nat (S n) + -1 <? 0) || (Z.of_nat (S n) <=? Z.of_nat (S n) + -1))%Z
      with false.
    + replace (Z.to_nat (Z.of_nat (S n) + -1)) with (String.length s - 1)%nat by lia.
      rewrite get_last_char. now destruct (last_char s).
    + symmetry. apply orb_false_iff. split; [apply Z.ltb_ge|apply Z.leb_gt]; lia.
Qed.

Lemma str_index_before_last (s : string) :
  str_index s (-2) =
  match before_last_char s with Some c => Ok c | None => Raise index_error end.
Proof.
  unfold str_index. change (-2 <? 0)%Z with true. cbv iota.
  destruct (Nat.ltb (String.length s) 2) eqn:Hlt.
  - apply Nat.ltb_lt in Hlt.
    replace ((Z.of_nat (String.length s) + -2 <? 0)
             || (Z.of_nat (String.length s) <=? Z.of_nat (String.length s) + -2))%Z
      with true.
    + apply before_last_char_length in Hlt. now rewrite Hlt.
    + symmetry. apply orb_true_iff. left. apply Z.ltb_lt. lia.
  - apply Nat.ltb_ge in Hlt.
    replace ((Z.of_nat (String.length s) + -2 <? 0)
             || (Z.of_nat (String.length s) <=? Z.of_nat (String.length s) + -2))%Z
      with false.
    + replace (Z.to_nat (Z.of_nat (String.length s) + -2))
        with (String.length s - 2)%nat by lia.
      rewrite get_before_last_char by exact Hlt. now destruct (before_last_char s).
    + symmetry. apply orb_false_iff. split; [apply Z.ltb_ge|apply Z.leb_gt]; lia.
Qed.

(** ** Endpoint validation *)

Lemma short_endpoint_inv (e : pyval) :
  short_endpoint e = true -> e = PStr "" \/ e = PStr "/".
Proof.
  unfold short_endpoint, py_eq_str. destruct e; try discriminate.
  intros H. apply orb_true_iff in H as [H|H]; apply String.eqb_eq in H; subst; auto.
Qed.

(** With a supported version, the empty path and the path "/" make the
    validator index past the text. *)
Lemma api_validation_with_short (vs : list string) (txt : string) (v e : pyval) :
  py_in_strs v vs = true -> short_endpoint e = true ->
  api_validation_with vs txt v e = Raise index_error.
Proof.
  intros Hv He. unfold api_validation_with. rewrite Hv. cbn [negb].
  destruct (short_endpoint_inv e He); subst; reflexivity.
Qed.

(** Everywhere else the validator raises [InvalidParameterException] exactly
    where the contract rejects, and returns otherwise. *)
Lemma api_validation_with_contract (vs : list string) (txt : string) (v e : pyval) :
  py_in_strs v vs && short_endpoint e = false ->
  (contract_rejects vs v e = true ->
   exists msg, api_validation_with vs txt v e = Raise (invalid_parameter msg))
  /\ (contract_rejects vs v e = false -> api_validation_with vs txt v e = Ok tt).
Proof.
  intros Hdom. unfold api_validation_with, contract_rejects.
  destruct (py_in_strs v vs) eqn:Hv; cbn [negb orb andb] in *.
  2:{ split; [eauto|discriminate]. }
  destruct e as [| | |ep| |]; try (split; [eauto|discriminate]).
  rewrite str_index_first.
  destruct (first_char ep) as [c0|] eqn:H0.
  2:{ apply first_char_length in H0. destruct ep; [discriminate Hdom|discriminate H0]. }
  cbn [bind opt_ascii_eqb].
  destruct (Ascii.eqb c0 "/") eqn:Hc0; cbn [negb orb].
  2:{ split; [eauto|discriminate]. }
  rewrite str_index_last.
  destruct (last_char ep) as [c1|] eqn:H1.
  2:{ apply last_char_length in H1. apply first_char_length in H1. congruence. }
  cbn [bind opt_ascii_eqb].
  destruct (Ascii.eqb c1 "/") eqn:Hc1; cbn [andb].
  2:{ split; [discriminate|reflexivity]. }
  rewrite str_index_before_last.
  destruct (before_last_char ep) as [c2|] eqn:H2.
  - cbn [bind opt_ascii_eqb].
    destruct (Ascii.eqb c2 "="); cbn [negb]; split; eauto; discriminate.
  - exfalso. apply before_last_char_length in H2.
    destruct ep as [|a [|b r]]; cbn in H0, H1, H2; try lia; try discriminate.
    injection H0 as ->. apply Ascii.eqb_eq in Hc0. subst. discriminate Hdom.
Qed.

(** C3: the validator of [Connect] against its contract.  The validator
    raises [InvalidParameterException] exactly where the contract rejects,
    except on the empty path and on "/" under a supported version: the
    contract rejects both, and the validator raises [IndexError] there; at
    version "v1" and the empty path in particular.  Where the contract does
    not reject, validation returns. *)
Theorem Connect_api_validation_against_contract :
  (contract_rejects Connect_validation.valid_api_versions (PStr "v1") (PStr "") = true
   /\ Connect_validation._api_validation (PStr "v1") (PStr "") = Raise index_error)
  /\ (forall v e,
        is_raise (Connect_validation._api_validation v e) InvalidParameterException
        = contract_rejects Connect_validation.valid_api_versions v e
          && negb (py_in_strs v Connect_validation.valid_api_versions
                   && short_endpoint e))
  /\ (forall v e,
        contract_rejects Connect_validation.valid_api_versions v e = false ->
        Connect_validation._api_validation v e = Ok tt).
Proof.
  split; [split; reflexivity|]. split.
  - intros v e. unfold Connect_validation._api_validation.
    destruct (py_in_strs v Connect_validation.valid_api_versions && short_endpoint e)
      eqn:Hdom.
    + apply andb_true_iff in Hdom as [Hv He].
      rewrite (api_validation_with_short _ _ _ _ Hv He). cbn.
      now rewrite andb_false_r.
    + rewrite andb_true_r.
      destruct (api_validation_with_contract _ "['v1', 'v2', 'internal']" v e Hdom)
        as [Hrej Hacc].
      destruct (contract_rejects Connect_validation.valid_api_versions v e).
      * destruct (Hrej eq_refl) as [msg ->]. reflexivity.
      * now rewrite (Hacc eq_refl).
  - intros v e Hacc. unfold Connect_validation._api_validation.
    apply api_validation_with_contract; [|exact Hacc].
    apply andb_false_iff.
    destruct (short_endpoint e) eqn:He; [|now right]. left.
    destruct (py_in_strs v Connect_validation.valid_api_versions) eqn:Hv; [|reflexivity].
    exfalso. unfold contract_rejects in Hacc. rewrite Hv in Hacc.
    destruct (short_endpoint_inv e He); subst; discriminate Hacc.
Qed.

(** C10: with a supported version, the empty path and the path "/" make
    [_api_validation] raise [IndexError], not [InvalidParameterException];
    so in [Connect] and so in [Bootstrap]. *)
Theorem api_validation_short_endpoint_IndexError (v : string) :
  (In v Connect_validation.valid_api_versions ->
   Connect_validation._api_validation (PStr v) (PStr "") = Raise index_error
   /\ Connect_validation._api_validation (PStr v) (PStr "/") = Raise index_error)
  /\ (In v Bootstrap_validation.valid_api_versions ->
      Bootstrap_validation._api_validation (PStr v) (PStr "") = Raise index_error
      /\ Bootstrap_validation._api_validation (PStr v) (PStr "/") = Raise index_error)
  /\ exn_cls index_error = IndexError.
Proof.
  split; [|split; [|reflexivity]]; intros Hin; cbn in Hin;
    repeat (destruct Hin as [<-|Hin]; [split; reflexivity|]); contradiction.
Qed.

Lemma api_validation_short_endpoint_IndexError_witness :
  Connect_validation._api_validation (PStr "internal") (PStr "/") = Raise index_error
  /\ Bootstrap_validation._api_validation (PStr "v1") (PStr "") = Raise index_error.
Proof.
  split.
  - apply (api_validation_short_endpoint_IndexError "internal"). cbn. auto.
  - apply (api_validation_short_endpoint_IndexError "v1"). cbn. auto.
Defined.

(** ** Base64 on the test vectors of RFC 4648, section 10 *)

Example b64encode_rfc4648 :
  map b64encode [""; "f"; "fo"; "foo"; "foob"; "fooba"; "foobar"]
  = [""; "Zg=="; "Zm8="; "Zm9v"; "Zm9vYg=="; "Zm9vYmE="; "Zm9vYmFy"].
Proof. reflexivity. Qed.

Example b64encode_credentials :
  b64encode ("admin" ++ ":" ++ "password") = "YWRtaW46cGFzc3dvcmQ=".
Proof. reflexivity. Qed.

(** ** The connection and its credentials *)

Lemma or_environ_ok (env : environ) (arg : option string) (var missing v : string) :
  or_environ env arg var missing = Ok v ->
  arg = Some v \/ (arg = None /\ env var = Some v).
Proof.
  unfold or_environ. destruct arg as [a|].
  - intros [= ->]. now left.
  - destruct (env var); [intros [= ->]; now right|discriminate].
Qed.

(** What [__init__] leaves in the object, by where the token came from. *)
Lemma Connect_init_inv (env : environ) (ip u p t : option string) (c : Connect) :
  Connect_init env ip u p t = Ok c ->
  (exists tok, (t = Some tok \/ (t = None /\ env "rubrik_cdm_token" = Some tok))
               /\ api_token c = Some tok /\ username c = None /\ password c = None)
  \/ (exists u' p', t = None /\ env "rubrik_cdm_token" = None
                    /\ api_token c = None
                    /\ username c = Some u' /\ password c = Some p').
Proof.
  unfold Connect_init.
  destruct (or_environ env ip _ _) as [ip'|]; [cbn [bind]|discriminate].
  destruct t as [tok|].
  - intros [= <-]. left. exists tok. cbn. auto.
  - destruct (env "rubrik_cdm_token") as [tok|] eqn:Htok.
    + intros [= <-]. left. exists tok. cbn. auto.
    + destruct (or_environ env u _ _) as [u'|]; [cbn [bind]|discriminate].
      destruct (or_environ env p _ _) as [p'|]; [cbn [bind]|discriminate].
      intros [= <-]. right. exists u', p'. cbn. auto.
Qed.

Lemma invoke_all_id (ms : list method) (c : Connect) : invoke_all ms c = c.
Proof.
  revert c. induction ms as [|m ms IH]; intros c; [reflexivity|].
  cbn [invoke_all]. destruct m; cbn [invoke fst]; apply IH.
Qed.

(** C5: a constructed [Connect] holds exactly one credential form, the
    username with the password and no token, or the token and neither
    username nor password, whatever the arguments and the environment; and
    no method of the class changes the object. *)
Theorem Connect_exactly_one_credential_form
    (env : environ) (ip u p t : option string) (c : Connect) :
  Connect_init env ip u p t = Ok c ->
  xorb (basic_form c) (token_form c) = true
  /\ (token_form c = true <-> t <> None \/ env "rubrik_cdm_token" <> None)
  /\ (forall ms, invoke_all ms c = c).
Proof.
  intros Hinit.
  destruct (Connect_init_inv _ _ _ _ _ _ Hinit)
    as [(tok & Hsrc & Ht & Hu & Hp)|(u' & p' & Ht0 & Henv & Ht & Hu & Hp)];
    unfold basic_form, token_form; rewrite Ht, Hu, Hp;
    (split; [reflexivity|split; [|intros ms; apply invoke_all_id]]).
  - split; [intros _|reflexivity].
    destruct Hsrc as [->|[_ ->]]; [left|right]; discriminate.
  - split; [discriminate|]. intros [H|H]; contradiction.
Qed.

Lemma Connect_exactly_one_credential_form_witness :
  let env := fun var => if String.eqb var "rubrik_cdm_password" then Some "secret" else None in
  let c := mkConnect "10.0.0.1" None (Some "admin") (Some "secret") in
  xorb (basic_form c) (token_form c) = true
  /\ invoke_all [M_authorization_header; M_header] c = c.
Proof.
  intros env c.
  destruct (Connect_exactly_one_credential_form env (Some "10.0.0.1") (Some "admin")
              None None c eq_refl) as (Hx & _ & Himm).
  split; [exact Hx|apply Himm].
Defined.



(** ** Substring search *)

Lemma prefix_app (needle haystack : string) :
  String.prefix needle haystack = true <-> exists rest, haystack = needle ++ rest.
Proof.
  revert haystack. induction needle as [|c needle IH]; intros haystack; cbn.
  - split; [intros _; now exists haystack|intros _; now destruct haystack].
  - destruct haystack as [|d haystack].
    + split; [discriminate|intros [rest H]; discriminate H].
    + cbn [String.prefix]. destruct (ascii_dec c d) as [->|Hne].
      * rewrite IH. split; intros [rest H]; exists rest; [now subst|now injection H].
      * split; [discriminate|]. intros [rest [= H _]]. now destruct Hne.
Qed.

(** [str_contains] is Python's [in] on text: the needle occurs somewhere. *)
Lemma str_contains_spec (needle haystack : string) :
  str_contains needle haystack = true
  <-> exists before after, haystack = before ++ needle ++ after.
Proof.
  induction haystack as [|c haystack IH]; cbn [str_contains].
  - destruct (String.prefix needle "") eqn:Hp.
    + split; [intros _|intros _; reflexivity].
      apply prefix_app in Hp as [rest Hrest]. now exists "", rest.
    + split; [discriminate|]. intros ([|d before] & after & H).
      * assert (String.prefix needle "" = true) by (apply prefix_app; now exists after).
        congruence.
      * discriminate H.
  - destruct (String.prefix needle (String c haystack)) eqn:Hp.
    + split; [intros _|intros _; reflexivity].
      apply prefix_app in Hp as [rest Hrest]. now exists "", rest.
    + rewrite IH. split.
      * intros (before & after & ->). now exists (String c before), after.
      * intros ([|d before] & after & H).
        -- assert (String.prefix needle (String c haystack) = true)
             by (apply prefix_app; now exists after).
           congruence.
        -- injection H as _ ->. now exists before, after.
Qed.

(** ** The submission loop *)

Lemma refused_inv (r : reply) :
  refused r = true ->
  exists e, r = Fail e /\ exn_class_eqb (exn_cls e) APICallException = true
            /\ str_contains connection_refused (exn_msg e) = true.
Proof.
  destruct r as [b|e]; cbn; [discriminate|].
  intros H. apply andb_true_iff in H. eauto.
Qed.

(** Refused attempts never stop the loop: each costs a POST and a sleep, and
    the loop goes on with the replies that follow. *)
Lemma submit_refused (config tmo : pyval) (pre rest : list reply) :
  forallb refused pre = true ->
  submit config tmo (pre ++ rest)%list =
  (fst (submit config tmo rest),
   (retry_trace config tmo pre ++ snd (submit config tmo rest))%list).
Proof.
  induction pre as [|r pre IH]; intros Hpre.
  - cbn. now destruct (submit config tmo rest).
  - cbn [forallb] in Hpre. apply andb_true_iff in Hpre as [Hr Hpre].
    destruct (refused_inv r Hr) as (e & -> & Hcls & Hmsg).
    cbn [app submit]. rewrite Hcls, Hmsg. cbn [Z.add Z.eqb Pos.add Pos.succ Pos.eqb].
    rewrite (IH Hpre). reflexivity.
Qed.

(** The loop never reaches its own [raise]: whatever the replies, it does not
    end in "Unable to establish a connection to the Rubrik cluster.". *)
Lemma submit_never_unable_to_connect (config tmo : pyval) (posts : list reply) :
  fst (submit config tmo posts) <> Stopped (Raised unable_to_connect).
Proof.
  induction posts as [|r posts IH]; cbn [submit]; [discriminate|].
  destruct r as [body|e]; [discriminate|].
  destruct (exn_class_eqb (exn_cls e) APICallException) eqn:Hcls.
  - destruct (str_contains connection_refused (exn_msg e)).
    + cbn [Z.add Z.eqb Pos.add Pos.succ Pos.eqb].
      destruct (submit config tmo posts) as [s tr]. exact IH.
    + destruct (str_contains already_bootstrapped (exn_msg e)); discriminate.
  - cbn [fst]. intros [= ->]. discriminate Hcls.
Qed.

Lemma count_retry_trace (config tmo : pyval) (pre : list reply) :
  count_events is_post (retry_trace config tmo pre) = List.length pre
  /\ count_events is_sleep (retry_trace config tmo pre) = List.length pre
  /\ count_events is_get (retry_trace config tmo pre) = 0%nat.
Proof.
  unfold count_events, retry_trace.
  induction pre as [|r pre (IH1 & IH2 & IH3)]; [easy|]. cbn. auto.
Qed.

Lemma count_events_app (p : event -> bool) (t1 t2 : list event) :
  count_events p (t1 ++ t2)%list = (count_events p t1 + count_events p t2)%nat.
Proof. unfold count_events. now rewrite filter_app, length_app. Qed.

Section Workflow.

Variable py_str : pyval -> string.

(** C1: when every POST is refused, [setup_cluster] gives up at no
    attempt: after any number of refusals, twelve and beyond, it has
    raised nothing, has made one POST and slept 30 seconds for each, and is
    waiting on the next reply; and on no replies at all does the submission
    loop end in "Unable to establish a connection to the Rubrik cluster.". *)
Theorem setup_cluster_refused_retries_without_bound
    (a : setup_args) (config : pyval) (posts gets : list reply) :
  bootstrap_config a = Ok config ->
  forallb refused posts = true ->
  setup_cluster py_str a posts gets
  = (Pending, retry_trace config (timeout a) posts)
  /\ count_events is_post (snd (setup_cluster py_str a posts gets))
     = List.length posts
  /\ (forall replies,
        fst (submit config (timeout a) replies) <> Stopped (Raised unable_to_connect)).
Proof.
  intros Hcfg Hposts.
  assert (Hrun : setup_cluster py_str a posts gets
                 = (Pending, retry_trace config (timeout a) posts)).
  { unfold setup_cluster. rewrite Hcfg.
    rewrite <- (app_nil_r posts) at 1.
    rewrite (submit_refused _ _ _ _ Hposts). cbn. now rewrite app_nil_r. }
  rewrite Hrun. cbn [fst snd]. split; [reflexivity|]. split.
  - apply count_retry_trace.
  - intros replies. apply submit_never_unable_to_connect.
Qed.

(** C6, as the code has it: a POST that fails with the already-bootstrapped
    text, and not the connection-refused one, ends the run at once: [setup_cluster] returns
    the informational string, the failing POST is the last call it makes,
    and it polls nothing. *)
Theorem setup_cluster_already_bootstrapped
    (a : setup_args) (config : pyval) (pre rest gets : list reply) (e : exn) :
  bootstrap_config a = Ok config ->
  forallb refused pre = true ->
  exn_cls e = APICallException ->
  str_contains already_bootstrapped (exn_msg e) = true ->
  str_contains connection_refused (exn_msg e) = false ->
  setup_cluster py_str a (pre ++ Fail e :: rest)%list gets
  = (Returned (PStr no_change_required),
     (retry_trace config (timeout a) pre ++ [post_event config (timeout a)])%list)
  /\ count_events is_post (snd (setup_cluster py_str a (pre ++ Fail e :: rest)%list gets))
     = S (List.length pre)
  /\ count_events is_get (snd (setup_cluster py_str a (pre ++ Fail e :: rest)%list gets))
     = 0%nat.
Proof.
  intros Hcfg Hpre Hcls Halready Hrefused.
  assert (Hrun : setup_cluster py_str a (pre ++ Fail e :: rest)%list gets
                 = (Returned (PStr no_change_required),
                    (retry_trace config (timeout a) pre
                     ++ [post_event config (timeout a)])%list)).
  { unfold setup_cluster. rewrite Hcfg, (submit_refused _ _ _ _ Hpre).
    cbn [submit]. rewrite Hcls, Hrefused, Halready. reflexivity. }
  rewrite Hrun. cbn [fst snd]. split; [reflexivity|].
  rewrite !count_events_app.
  destruct (count_retry_trace config (timeout a) pre) as (-> & _ & ->).
  cbn. split; lia.
Qed.

(** C9, as the code has it: a POST that fails with an [APICallException]
    that is neither connection-refused nor already-bootstrapped ends the
    run at once: [setup_cluster] raises a [RubrikException] with the text
    of that error, and the failing POST is the last call it makes. *)
Theorem setup_cluster_other_api_error
    (a : setup_args) (config : pyval) (pre rest gets : list reply) (e : exn) :
  bootstrap_config a = Ok config ->
  forallb refused pre = true ->
  exn_cls e = APICallException ->
  str_contains connection_refused (exn_msg e) = false ->
  str_contains already_bootstrapped (exn_msg e) = false ->
  setup_cluster py_str a (pre ++ Fail e :: rest)%list gets
  = (Raised (Exn RubrikException (exn_msg e)),
     (retry_trace config (timeout a) pre ++ [post_event config (timeout a)])%list).
Proof.
  intros Hcfg Hpre Hcls Hrefused Halready.
  unfold setup_cluster. rewrite Hcfg, (submit_refused _ _ _ _ Hpre).
  cbn [submit]. rewrite Hcls, Hrefused, Halready. reflexivity.
Qed.

(** C7, as the code has it: when [node_config] is [None] or is not a
    dictionary, [setup_cluster] raises [InvalidParameterException] and
    makes no call at all. *)
Theorem setup_cluster_node_config_not_a_dict
    (a : setup_args) (posts gets : list reply) :
  (forall items, node_config a <> PDict items) ->
  setup_cluster py_str a posts gets
  = (Raised (invalid_parameter
               ("You must provide a valid dictionary for "
                ++ dq ++ "node_config" ++ dq ++ ".")), []).
Proof.
  intros Hnc. unfold setup_cluster, bootstrap_config.
  destruct (node_config a) as [| | | | |items]; try reflexivity.
  now destruct (Hnc items).
Qed.

(** *** The polling loop *)

Lemma in_progress_inv (payload : pyval) :
  in_progress payload = true ->
  exists st, py_getitem payload "status" = Ok st
             /\ py_eq_str st "IN_PROGRESS" = true.
Proof.
  unfold in_progress, status_is.
  destruct (py_getitem payload "status") as [st|]; [eauto|discriminate].
Qed.

(** Payloads in progress never stop the loop: each costs a GET and a
    sleep, and the loop goes on with the replies that follow. *)
Lemma poll_in_progress (request_id : pyval) (pre : list pyval) (rest : list reply) :
  forallb in_progress pre = true ->
  poll py_str request_id (map Reply pre ++ rest)%list =
  (fst (poll py_str request_id rest),
   (wait_trace py_str request_id pre ++ snd (poll py_str request_id rest))%list).
Proof.
  induction pre as [|s pre IH]; intros Hpre.
  - cbn. now destruct (poll py_str request_id rest).
  - cbn [forallb] in Hpre. apply andb_true_iff in Hpre as [Hs Hpre].
    destruct (in_progress_inv s Hs) as (st & Hst & Htag).
    cbn [map app poll status]. rewrite Hst, Htag, (IH Hpre). reflexivity.
Qed.

Lemma count_wait_trace (request_id : pyval) (pre : list pyval) :
  count_events is_post (wait_trace py_str request_id pre) = 0%nat
  /\ count_events is_sleep (wait_trace py_str request_id pre) = List.length pre
  /\ count_events is_get (wait_trace py_str request_id pre) = List.length pre.
Proof.
  unfold count_events, wait_trace.
  induction pre as [|s pre (IH1 & IH2 & IH3)]; [easy|]. cbn. auto.
Qed.

(** The iteration that meets a payload which is not in progress. *)
Lemma poll_terminal (request_id payload : pyval) (rest : list reply) :
  has_status payload = true ->
  in_progress payload = false ->
  snd (poll py_str request_id (Reply payload :: rest))
  = [status_event py_str request_id]
  /\ (failed payload = false ->
      fst (poll py_str request_id (Reply payload :: rest)) = Returned payload)
  /\ (failed payload = true ->
      forall message, py_getitem payload "message" = Ok message ->
      fst (poll py_str request_id (Reply payload :: rest))
      = Raised (Exn RubrikException (py_str message))).
Proof.
  unfold has_status, in_progress, failed, status_is. cbn [poll status].
  destruct (py_getitem payload "status") as [st|]; [|discriminate].
  intros _ ->.
  destruct (py_eq_str st "FAILURE" || py_eq_str st "FAILED").
  - split; [now destruct (py_getitem payload "message")|].
    split; [discriminate|]. now intros _ message ->.
  - repeat split; discriminate.
Qed.

(** C2: polling with [wait_for_completion] set.  Let the statuses read
    IN_PROGRESS up to a first payload that does not.  Then the run makes
    one GET and one 30-second sleep for each payload in progress and one
    last GET, and nothing after it; if that payload reads FAILURE or
    FAILED the run raises a [RubrikException] with the payload's message,
    and if it reads anything else the run returns the payload. *)
Theorem setup_cluster_polling
    (a : setup_args) (config api_request request_id : pyval)
    (posts : list reply) (pre : list pyval) (payload : pyval) (rest : list reply) :
  bootstrap_config a = Ok config ->
  wait_for_completion a = true ->
  py_getitem api_request "id" = Ok request_id ->
  forallb in_progress pre = true ->
  has_status payload = true ->
  in_progress payload = false ->
  let run := setup_cluster py_str a (Reply api_request :: posts)
               (map Reply pre ++ Reply payload :: rest)%list in
  snd run = (post_event config (timeout a)
             :: wait_trace py_str request_id pre
             ++ [status_event py_str request_id])%list
  /\ count_events is_sleep (snd run) = List.length pre
  /\ count_events is_get (snd run) = S (List.length pre)
  /\ (failed payload = true ->
      forall message, py_getitem payload "message" = Ok message ->
      fst run = Raised (Exn RubrikException (py_str message)))
  /\ (failed payload = false -> fst run = Returned payload).
Proof.
  intros Hcfg Hwait Hid Hpre Hst Hnot run.
  destruct (poll_terminal request_id payload rest Hst Hnot) as (Htr & Hret & Hfail).
  assert (Hrun : run = (fst (poll py_str request_id (Reply payload :: rest)),
                        (post_event config (timeout a)
                         :: wait_trace py_str request_id pre
                         ++ [status_event py_str request_id])%list)).
  { subst run. unfold setup_cluster. rewrite Hcfg. cbn [submit].
    rewrite Hid, Hwait, (poll_in_progress _ _ _ Hpre), Htr. reflexivity. }
  rewrite Hrun. cbn [fst snd]. split; [reflexivity|].
  destruct (count_wait_trace request_id pre) as (_ & Hsl & Hget).
  split; [|split; [|split; assumption]].
  - change (count_events is_sleep
              (wait_trace py_str request_id pre ++ [status_event py_str request_id])
            = List.length pre).
    rewrite count_events_app, Hsl. cbn. lia.
  - change (count_events is_get
              (wait_trace py_str request_id pre ++ [status_event py_str request_id])
            = S (List.length pre)).
    rewrite count_events_app, Hget. cbn. lia.
Qed.

End Workflow.

(** ** The workflow on concrete replies *)

Lemma setup_cluster_refused_retries_without_bound_witness :
  let run := setup_cluster py_str_scalar sample_args
               (repeat (Fail refused_error) 13) [] in
  fst run = Pending /\ count_events is_post (snd run) = 13%nat.
Proof.
  destruct (setup_cluster_refused_retries_without_bound py_str_scalar sample_args _
              (repeat (Fail refused_error) 13) [] eq_refl eq_refl)
    as (Hrun & Hposts & _).
  cbv zeta. split; [now rewrite Hrun|exact Hposts].
Defined.

Lemma setup_cluster_polling_witness :
  (let run := setup_cluster py_str_scalar sample_args [Reply accepted_reply]
                [Reply (payload_of "IN_PROGRESS"); Reply (payload_of "IN_PROGRESS");
                 Reply (payload_of "SUCCESS")] in
   fst run = Returned (payload_of "SUCCESS")
   /\ count_events is_sleep (snd run) = 2%nat)
  /\ (let run := setup_cluster py_str_scalar sample_args [Reply accepted_reply]
                   [Reply failure_payload] in
      fst run = Raised (Exn RubrikException "Node discovery failed")
      /\ count_events is_sleep (snd run) = 0%nat
      /\ count_events is_get (snd run) = 1%nat).
Proof.
  split.
  - destruct (setup_cluster_polling py_str_scalar sample_args _ accepted_reply
                (PStr "1") [] [payload_of "IN_PROGRESS"; payload_of "IN_PROGRESS"]
                (payload_of "SUCCESS") [] eq_refl eq_refl eq_refl eq_refl eq_refl eq_refl)
      as (_ & Hsleep & _ & _ & Hret).
    split; [exact (Hret eq_refl)|exact Hsleep].
  - destruct (setup_cluster_polling py_str_scalar sample_args _ accepted_reply
                (PStr "1") [] [] failure_payload [] eq_refl eq_refl eq_refl eq_refl
                eq_refl eq_refl)
      as (_ & Hsleep & Hget & Hfail & _).
    split; [exact (Hfail eq_refl (PStr "Node discovery failed") eq_refl)|].
    split; [exact Hsleep|exact Hget].
Defined.

Lemma setup_cluster_already_bootstrapped_witness :
  let run := setup_cluster py_str_scalar sample_args
               [Fail refused_error; Fail already_error; Reply accepted_reply]
               [Reply (payload_of "SUCCESS")] in
  fst run = Returned (PStr no_change_required)
  /\ count_events is_post (snd run) = 2%nat
  /\ count_events is_get (snd run) = 0%nat.
Proof.
  destruct (setup_cluster_already_bootstrapped py_str_scalar sample_args _
              [Fail refused_error] [Reply accepted_reply]
              [Reply (payload_of "SUCCESS")] already_error
              eq_refl eq_refl eq_refl eq_refl eq_refl)
    as (Hrun & Hposts & Hgets).
  cbv zeta. split; [exact (f_equal fst Hrun)|]. split; [exact Hposts|exact Hgets].
Defined.

(** C6 as stated fails: on an error whose text holds the already-bootstrapped
    sentence and the connection-refused one, the run does not return the
    informational string: it sleeps, posts again and polls. *)
Lemma setup_cluster_already_bootstrapped_but_refused :
  let run := setup_cluster py_str_scalar sample_args
               [Fail refused_and_already_error; Reply accepted_reply]
               [Reply (payload_of "SUCCESS")] in
  exn_cls refused_and_already_error = APICallException
  /\ str_contains already_bootstrapped (exn_msg refused_and_already_error) = true
  /\ fst run <> Returned (PStr no_change_required)
  /\ count_events is_post (snd run) = 2%nat
  /\ count_events is_sleep (snd run) = 1%nat
  /\ count_events is_get (snd run) = 1%nat.
Proof.
  cbv zeta. repeat (split; [reflexivity|]).
  split; [discriminate|]. repeat split.
Qed.

Lemma setup_cluster_other_api_error_witness :
  fst (setup_cluster py_str_scalar sample_args [Fail server_error] [])
  = Raised (Exn RubrikException "500 Server Error: Internal Server Error").
Proof.
  exact (f_equal fst
           (setup_cluster_other_api_error py_str_scalar sample_args _ [] [] []
              server_error eq_refl eq_refl eq_refl eq_refl eq_refl)).
Defined.

(** C9 as stated fails: the error that reaches the caller is not an
    [APICallException]. *)
Lemma setup_cluster_other_api_error_not_APICall :
  ~ (exists msg,
       fst (setup_cluster py_str_scalar sample_args [Fail server_error] [])
       = Raised (Exn APICallException msg)).
Proof. intros [msg H]. discriminate H. Qed.

Lemma setup_cluster_node_config_not_a_dict_witness :
  setup_cluster py_str_scalar
    (default_args (PStr "c1") (PStr "admin@example.com") (PStr "secret")
       (PStr "10.0.0.1") (PStr "255.255.255.0"))
    [Reply accepted_reply] [Reply (payload_of "SUCCESS")]
  = (Raised (invalid_parameter
               ("You must provide a valid dictionary for "
                ++ dq ++ "node_config" ++ dq ++ ".")), []).
Proof.
  apply setup_cluster_node_config_not_a_dict. cbn. discriminate.
Defined.

(** C7 as stated fails: an empty [node_config] is not rejected, and the
    configuration is posted. *)
Lemma setup_cluster_empty_node_config_is_posted :
  let run := setup_cluster py_str_scalar (with_node_config sample_args (PDict []))
               [Reply accepted_reply] [Reply (payload_of "SUCCESS")] in
  ~ (raises InvalidParameterException (fst run) = true
     /\ count_events is_post (snd run) = 0%nat)
  /\ fst run = Returned (payload_of "SUCCESS")
  /\ count_events is_post (snd run) = 1%nat.
Proof.
  cbv zeta. split; [|split; reflexivity].
  intros [H _]. discriminate H.
Qed.

(** ** The bootstrap configuration *)

Lemma dict_get_set_same (k : string) (v : pyval) (d : dict) :
  dict_get k (dict_set k v d) = Some v.
Proof.
  induction d as [|[k' v'] d IH]; cbn.
  - now rewrite String.eqb_refl.
  - destruct (String.eqb k k') eqn:Hk; cbn; rewrite ?String.eqb_refl, ?Hk; auto.
Qed.

Lemma dict_get_set_other (k k' : string) (v : pyval) (d : dict) :
  k <> k' -> dict_get k (dict_set k' v d) = dict_get k d.
Proof.
  intros Hne. apply String.eqb_neq in Hne.
  induction d as [|[k'' v''] d IH]; cbn.
  - now rewrite Hne.
  - destruct (String.eqb k' k'') eqn:Hk; cbn.
    + apply String.eqb_eq in Hk. subst. now rewrite Hne.
    + now rewrite IH.
Qed.

Lemma node_configs_other (mask gw : pyval) (items acc : dict) (name : string) :
  ~ In name (map fst items) ->
  dict_get name (node_configs mask gw items acc) = dict_get name acc.
Proof.
  revert acc. induction items as [|[k ip] items IH]; intros acc Hnot; [reflexivity|].
  cbn [node_configs]. cbn in Hnot. rewrite IH by tauto.
  apply dict_get_set_other. intros ->. tauto.
Qed.

(** Every node of [node_config] gets an entry with the supplied subnet mask
    and gateway and its own address. *)
Lemma node_configs_entry (mask gw : pyval) (items acc : dict) (name : string)
    (ip : pyval) :
  NoDup (map fst items) -> In (name, ip) items ->
  dict_get name (node_configs mask gw items acc) = Some (node_entry mask gw ip).
Proof.
  revert acc. induction items as [|[k ip'] items IH]; intros acc Hnd Hin; [easy|].
  cbn [node_configs]. cbn in Hnd. inversion Hnd as [|? ? Hk Hnd']; subst.
  destruct Hin as [[= -> ->]|Hin].
  - rewrite node_configs_other by exact Hk. apply dict_get_set_same.
  - now apply IH.
Qed.

Lemma bootstrap_config_node_entry (a : setup_args) (config : pyval) (items : dict)
    (name : string) (ip : pyval) :
  node_config a = PDict items -> NoDup (map fst items) -> In (name, ip) items ->
  bootstrap_config a = Ok config ->
  py_path config ["nodeConfigs"; name; "managementIpConfig"]
  = Ok (PDict [ ("netmask", management_subnet_mask a);
                ("gateway", management_gateway a);
                ("address", ip) ]).
Proof.
  intros Hnc Hnd Hin. unfold bootstrap_config. rewrite Hnc.
  destruct (list_or_default (dns_search_domains a) _ _); [cbn [bind]|discriminate].
  destruct (list_or_default (dns_nameservers a) _ _); [cbn [bind]|discriminate].
  destruct (list_or_default (ntp_servers a) _ _); [cbn [bind]|discriminate].
  intros [= <-]. cbn [py_path py_getitem dict_get String.eqb Ascii.eqb Bool.eqb bind].
  rewrite (node_configs_entry _ _ _ _ _ _ Hnd Hin). reflexivity.
Qed.

Lemma submit_first_event (config tmo : pyval) (r : reply) (posts : list reply) :
  hd_error (snd (submit config tmo (r :: posts))) = Some (post_event config tmo).
Proof.
  cbn [submit]. destruct r as [body|e]; [reflexivity|].
  destruct (exn_class_eqb _ _); [|reflexivity].
  destruct (str_contains connection_refused _).
  - cbn. now destruct (submit config tmo posts).
  - now destruct (str_contains already_bootstrapped _).
Qed.

(** C8: from cluster_name "c1", node_config {"node1": "1.2.3.4"} and the
    defaults for the rest, [setup_cluster] builds and posts a configuration
    whose name is "c1", whose dnsNameservers is ["8.8.8.8"], whose ntpServers
    is ["pool.ntp.org"], whose dnsSearchDomains is the empty list, and whose
    nodeConfigs has the one entry node1, with address "1.2.3.4" and the
    supplied gateway and subnet mask in its managementIpConfig. *)
Theorem bootstrap_config_c1_node1
    (py_str : pyval -> string) (email pw gw mask : pyval)
    (r : reply) (posts gets : list reply) :
  let a := with_node_config (default_args (PStr "c1") email pw gw mask)
             (PDict [("node1", PStr "1.2.3.4")]) in
  exists config,
    bootstrap_config a = Ok config
    /\ hd_error (snd (setup_cluster py_str a (r :: posts) gets))
       = Some (post_event config (PInt 30))
    /\ py_path config ["name"] = Ok (PStr "c1")
    /\ py_path config ["dnsNameservers"] = Ok (PList [PStr "8.8.8.8"])
    /\ py_path config ["ntpServers"] = Ok (PList [PStr "pool.ntp.org"])
    /\ py_path config ["dnsSearchDomains"] = Ok (PList [])
    /\ py_path config ["nodeConfigs"; "node1"; "managementIpConfig"; "address"]
       = Ok (PStr "1.2.3.4")
    /\ py_path config ["nodeConfigs"; "node1"; "managementIpConfig"; "gateway"]
       = Ok gw
    /\ py_path config ["nodeConfigs"; "node1"; "managementIpConfig"; "netmask"]
       = Ok mask
    /\ (exists entry, py_path config ["nodeConfigs"] = Ok (PDict [("node1", entry)])).
Proof.
  intros a. eexists. split; [reflexivity|]. split.
  - unfold setup_cluster. cbn [bootstrap_config a with_node_config default_args
      node_config dns_search_domains dns_nameservers ntp_servers list_or_default bind].
    pose proof (submit_first_event
                  (PDict
                     [ ("enableSoftwareEncryptionAtRest", enable_encryption a);
                       ("name", cluster_name a);
                       ("dnsNameservers", PList [PStr "8.8.8.8"]);
                       ("dnsSearchDomains", PList []);
                       ("ntpServers", PList [PStr "pool.ntp.org"]);
                       ("adminUserInfo",
                        PDict [ ("password", admin_password a);
                                ("emailAddress", admin_email a);
                                ("id", PStr "admin") ]);
                       ("nodeConfigs",
                        PDict (node_configs (management_subnet_mask a)
                                 (management_gateway a)
                                 [("node1", PStr "1.2.3.4")] [])) ])
                  (timeout a) r posts) as Hhd.
    destruct (submit _ (timeout a) (r :: posts)) as [[api_request|o] tr] eqn:Hsub;
      cbn [snd] in Hhd |- *; [|exact Hhd].
    destruct (py_getitem api_request "id") as [request_id|]; [|exact Hhd].
    cbn [wait_for_completion a with_node_config default_args].
    destruct (poll py_str request_id gets) as [o tr']. cbn [snd].
    destruct tr; [discriminate Hhd|exact Hhd].
  - repeat split; try reflexivity. eexists. reflexivity.
Qed.

(** ** More on the constructor of [Connect] *)

Lemma or_environ_resolve (env : environ) (arg : option string) (var missing : string) :
  or_environ env arg var missing =
  match resolve env arg var with
  | Some v => Ok v
  | None => Raise (invalid_parameter missing)
  end.
Proof. unfold or_environ, resolve. destruct arg; [reflexivity|]. now destruct (env var). Qed.

(** What [__init__] does, by what is available to it. *)
Lemma Connect_init_resolve (env : environ) (ip u p t : option string) :
  Connect_init env ip u p t =
  match resolve env ip "rubrik_cdm_node_ip" with
  | None => Raise (invalid_parameter "The Rubrik CDM Node IP has not been provided.")
  | Some i =>
      match resolve env t "rubrik_cdm_token" with
      | Some tok => Ok (mkConnect i (Some tok) None None)
      | None =>
          match resolve env u "rubrik_cdm_username" with
          | None =>
              Raise (invalid_parameter
                       "The Rubrik CDM Username or an API Token has not been provided.")
          | Some a =>
              match resolve env p "rubrik_cdm_password" with
              | None =>
                  Raise (invalid_parameter
                           "The Rubrik CDM Password or an API Token has not been provided.")
              | Some b => Ok (mkConnect i None (Some a) (Some b))
              end
          end
      end
  end.
Proof.
  unfold Connect_init. rewrite !or_environ_resolve.
  destruct (resolve env ip _) as [i|]; [cbn [bind]|reflexivity].
  destruct t as [tok|]; [reflexivity|]. cbn [resolve].
  destruct (env "rubrik_cdm_token") as [tok|]; [reflexivity|].
  destruct (resolve env u _) as [a|]; [cbn [bind]|reflexivity].
  now destruct (resolve env p _).
Qed.

(** X1: the constructor succeeds exactly when a node address is available
    and either a token or both a username and a password are, each from its
    argument or from its environment variable. *)
Theorem Connect_init_succeeds_iff (env : environ) (ip u p t : option string) :
  (exists c, Connect_init env ip u p t = Ok c)
  <-> available env ip "rubrik_cdm_node_ip" = true
      /\ (available env t "rubrik_cdm_token" = true
          \/ (available env u "rubrik_cdm_username" = true
              /\ available env p "rubrik_cdm_password" = true)).
Proof.
  rewrite Connect_init_resolve. unfold available.
  destruct (resolve env ip _); [|split; [intros [c H]; discriminate H|intros [H _]; discriminate H]].
  destruct (resolve env t _).
  { split; [intros _; auto|eauto]. }
  destruct (resolve env u _).
  2:{ split; [intros [c H]; discriminate H|].
      intros [_ [H|[H _]]]; discriminate H. }
  destruct (resolve env p _).
  - split; [intros _; auto|eauto].
  - split; [intros [c H]; discriminate H|].
    intros [_ [H|[_ H]]]; discriminate H.
Qed.

(** X2: every failure of the constructor is an [InvalidParameterException]
    that names the first item missing, in the order node address, username,
    password; a missing password is reported only when a username is there. *)
Theorem Connect_init_names_first_missing (env : environ) (ip u p t : option string)
    (e : exn) :
  Connect_init env ip u p t = Raise e ->
  exn_cls e = InvalidParameterException
  /\ (available env ip "rubrik_cdm_node_ip" = false ->
      exn_msg e = "The Rubrik CDM Node IP has not been provided.")
  /\ (available env ip "rubrik_cdm_node_ip" = true ->
      available env t "rubrik_cdm_token" = false
      /\ (available env u "rubrik_cdm_username" = false ->
          exn_msg e = "The Rubrik CDM Username or an API Token has not been provided.")
      /\ (available env u "rubrik_cdm_username" = true ->
          available env p "rubrik_cdm_password" = false
          /\ exn_msg e
             = "The Rubrik CDM Password or an API Token has not been provided.")).
Proof.
  rewrite Connect_init_resolve. unfold available.
  destruct (resolve env ip _).
  2:{ intros [= <-]. repeat split; discriminate. }
  destruct (resolve env t _); [discriminate|].
  destruct (resolve env u _).
  2:{ intros [= <-]. repeat split; discriminate. }
  destruct (resolve env p _); [discriminate|].
  intros [= <-]. repeat split; discriminate.
Qed.

Lemma Connect_init_names_first_missing_witness :
  let env := fun var => if String.eqb var "rubrik_cdm_node_ip" then Some "10.0.0.1" else None in
  exists e,
    Connect_init env None (Some "admin") None None = Raise e
    /\ exn_cls e = InvalidParameterException
    /\ exn_msg e = "The Rubrik CDM Password or an API Token has not been provided.".
Proof.
  intros env. eexists. split; [reflexivity|].
  destruct (Connect_init_names_first_missing env None (Some "admin") None None _ eq_refl)
    as (Hcls & _ & H).
  split; [exact Hcls|].
  destruct (H eq_refl) as (_ & _ & H'). exact (proj2 (H' eq_refl)).
Defined.

(** X3: an explicit argument wins over its environment variable, and a token
    wins over username and password: the object holds the resolved node
    address and token, and, when there is no token, the resolved username
    and password. *)
Theorem Connect_init_precedence (env : environ) (ip u p t : option string)
    (c : Connect) :
  Connect_init env ip u p t = Ok c ->
  resolve env ip "rubrik_cdm_node_ip" = Some (node_ip c)
  /\ api_token c = resolve env t "rubrik_cdm_token"
  /\ (forall v, ip = Some v -> node_ip c = v)
  /\ (forall tok, t = Some tok -> api_token c = Some tok)
  /\ (api_token c = None ->
      username c = resolve env u "rubrik_cdm_username"
      /\ password c = resolve env p "rubrik_cdm_password"
      /\ (forall v, u = Some v -> username c = Some v)
      /\ (forall v, p = Some v -> password c = Some v)).
Proof.
  rewrite Connect_init_resolve.
  destruct (resolve env ip _) as [i|] eqn:Hip; [|discriminate].
  destruct (resolve env t _) as [tok|] eqn:Ht.
  - intros [= <-]. cbn. repeat split; try discriminate.
    + intros v ->. cbn in Hip. congruence.
    + intros tok' ->. cbn in Ht. congruence.
  - destruct (resolve env u _) as [a|] eqn:Hu; [|discriminate].
    destruct (resolve env p _) as [b|] eqn:Hp; [|discriminate].
    intros [= <-]. cbn. repeat split.
    + intros v ->. cbn in Hip. congruence.
    + intros tok' ->. cbn in Ht. discriminate.
    + intros v ->. cbn in Hu. congruence.
    + intros v ->. cbn in Hp. congruence.
Qed.

Lemma Connect_init_precedence_witness :
  let env := fun var => if String.eqb var "rubrik_cdm_username" then Some "from_env" else None in
  username (mkConnect "10.0.0.1" None (Some "admin") (Some "secret")) = Some "admin".
Proof.
  intros env.
  destruct (Connect_init_precedence env (Some "10.0.0.1") (Some "admin") (Some "secret")
              None _ eq_refl) as (_ & _ & _ & _ & H).
  destruct (H eq_refl) as (_ & _ & Hu & _). exact (Hu "admin" eq_refl).
Defined.

(** X4: once a token is available, the username and password arguments and
    their environment variables have no part in the object built. *)
Theorem Connect_init_token_ignores_credentials
    (env env' : environ) (ip u p u' p' t : option string) :
  env' "rubrik_cdm_node_ip" = env "rubrik_cdm_node_ip" ->
  env' "rubrik_cdm_token" = env "rubrik_cdm_token" ->
  available env t "rubrik_cdm_token" = true ->
  Connect_init env' ip u' p' t = Connect_init env ip u p t.
Proof.
  intros Hip Htok Hav. rewrite !Connect_init_resolve.
  assert (Hr : forall a var, env' var = env var -> resolve env' a var = resolve env a var).
  { intros a var H. unfold resolve. now rewrite H. }
  rewrite (Hr ip _ Hip), (Hr t _ Htok).
  unfold available in Hav.
  destruct (resolve env ip _); [|reflexivity].
  destruct (resolve env t _); [reflexivity|discriminate].
Qed.

Lemma Connect_init_token_ignores_credentials_witness :
  Connect_init (fun _ => None) (Some "10.0.0.1") (Some "admin") (Some "secret") (Some "tok")
  = Connect_init (fun _ => None) (Some "10.0.0.1") None None (Some "tok").
Proof.
  apply Connect_init_token_ignores_credentials; reflexivity.
Defined.

(** ** Base64 loses nothing *)







(** ** What the Authorization header tells *)

Lemma append_assoc (a b c : string) : (a ++ b) ++ c = a ++ b ++ c.
Proof. induction a as [|x a IH]; cbn; [reflexivity|now rewrite IH]. Qed.

Lemma length_append (a b : string) :
  String.length (a ++ b) = (String.length a + String.length b)%nat.
Proof. induction a as [|x a IH]; cbn; [reflexivity|now rewrite IH]. Qed.





(** X6: a colon in the username makes the header ambiguous: the username
    "u:p" with password "q" and the username "u" with password "p:q" get the
    same headers, though the usernames differ. *)
Theorem basic_header_colon_ambiguity (ip u p q : string) :
  _authorization_header (mkConnect ip None (Some (u ++ ":" ++ p)) (Some q))
  = _authorization_header (mkConnect ip None (Some u) (Some (p ++ ":" ++ q)))
  /\ u ++ ":" ++ p <> u.
Proof.
  split.
  - cbn. now rewrite !append_assoc.
  - intros H. apply (f_equal String.length) in H.
    rewrite length_append in H. cbn in H. lia.
Qed.

(** X7: a token connection's headers are those of another exactly when the
    tokens are the same, and are never those of a username-and-password
    connection. *)
Theorem bearer_header_determines_token
    (ip1 ip2 t1 t2 : string) (u1 p1 u2 p2 : option string) (u p : string) :
  (_authorization_header (mkConnect ip1 (Some t1) u1 p1)
   = _authorization_header (mkConnect ip2 (Some t2) u2 p2) <-> t1 = t2)
  /\ _authorization_header (mkConnect ip1 (Some t1) u1 p1)
     <> _authorization_header (mkConnect ip2 None (Some u) (Some p)).
Proof.
  split.
  - cbn. split; [now intros [= H]|now intros ->].
  - cbn. intros [= H].
Qed.

(** ** More on endpoint validation *)

Lemma last_char_cons (a : ascii) (s : string) :
  s <> "" -> last_char (String a s) = last_char s.
Proof. destruct s; [congruence|reflexivity]. Qed.

Lemma before_last_char_cons (a : ascii) (s : string) :
  (2 <= String.length s)%nat -> before_last_char (String a s) = before_last_char s.
Proof. destruct s as [|b [|c s]]; cbn; try lia. reflexivity. Qed.

Lemma append_nonempty (p s : string) : s <> "" -> p ++ s <> "".
Proof. destruct p; cbn; congruence. Qed.

Lemma last_char_app (p s : string) :
  s <> "" -> last_char (p ++ s) = last_char s.
Proof.
  intros Hs. induction p as [|a p IH]; [reflexivity|].
  cbn [append]. rewrite last_char_cons by now apply append_nonempty. exact IH.
Qed.

Lemma before_last_char_app (p s : string) :
  (2 <= String.length s)%nat -> before_last_char (p ++ s) = before_last_char s.
Proof.
  intros Hs. induction p as [|a p IH]; [reflexivity|].
  cbn [append]. rewrite before_last_char_cons; [exact IH|].
  rewrite length_append. lia.
Qed.

Lemma before_last_char_snoc (p : string) (c : ascii) :
  before_last_char (p ++ String c "") = last_char p.
Proof.
  induction p as [|a p IH]; [reflexivity|].
  destruct p as [|b p]; [reflexivity|].
  cbn [append] in *. rewrite before_last_char_cons by (cbn; rewrite length_append; cbn; lia).
  rewrite IH. reflexivity.
Qed.

Lemma first_char_app (p s : string) :
  p <> "" -> first_char (p ++ s) = first_char p.
Proof. destruct p; [congruence|reflexivity]. Qed.

(** Which of its three outcomes the validator has. *)
Lemma api_validation_with_outcome (vs : list string) (txt : string) (v e : pyval) :
  (api_validation_with vs txt v e = Ok tt <-> contract_rejects vs v e = false)
  /\ is_raise (api_validation_with vs txt v e) InvalidParameterException
     = contract_rejects vs v e && negb (py_in_strs v vs && short_endpoint e)
  /\ is_raise (api_validation_with vs txt v e) IndexError
     = py_in_strs v vs && short_endpoint e.
Proof.
  destruct (py_in_strs v vs && short_endpoint e) eqn:Hdom.
  - apply andb_true_iff in Hdom as [Hv He].
    rewrite (api_validation_with_short _ _ _ _ Hv He).
    split; [|split; [now rewrite andb_false_r|reflexivity]].
    split; [discriminate|]. unfold contract_rejects. rewrite Hv.
    destruct (short_endpoint_inv e He); subst; discriminate.
  - destruct (api_validation_with_contract vs txt v e Hdom) as [Hrej Hacc].
    destruct (contract_rejects vs v e).
    + destruct (Hrej eq_refl) as [msg ->]. repeat split; discriminate.
    + rewrite (Hacc eq_refl). repeat split; reflexivity.
Qed.

(** A path is accepted exactly when it starts with "/" and, if it ends with
    "/", has "=" just before. *)
Lemma api_validation_with_accepts (vs : list string) (txt : string) (v : pyval)
    (ep : string) :
  api_validation_with vs txt v (PStr ep) = Ok tt
  <-> py_in_strs v vs = true
      /\ first_char ep = Some "/"%char
      /\ (last_char ep = Some "/"%char -> before_last_char ep = Some "="%char).
Proof.
  rewrite (proj1 (api_validation_with_outcome vs txt v (PStr ep))).
  unfold contract_rejects. destruct (py_in_strs v vs); cbn [negb orb].
  2:{ split; [discriminate|intros [H _]; discriminate H]. }
  destruct (first_char ep) as [c0|]; cbn [opt_ascii_eqb].
  2:{ split; [discriminate|intros (_ & H & _); discriminate H]. }
  destruct (Ascii.eqb_spec c0 "/") as [->|Hc0]; cbn [negb orb].
  2:{ split; [discriminate|intros (_ & [= H] & _); contradiction]. }
  destruct (last_char ep) as [c1|]; cbn [opt_ascii_eqb andb].
  2:{ split; [intros _; repeat split; discriminate|reflexivity]. }
  destruct (Ascii.eqb_spec c1 "/") as [->|Hc1]; cbn [andb].
  2:{ split; [intros _; repeat split; intros [= H]; contradiction|reflexivity]. }
  destruct (before_last_char ep) as [c2|]; cbn [opt_ascii_eqb negb].
  2:{ split; [discriminate|intros (_ & _ & H); discriminate (H eq_refl)]. }
  destruct (Ascii.eqb_spec c2 "=") as [->|Hc2]; cbn [negb].
  - split; [intros _; repeat split|reflexivity].
  - split; [discriminate|]. intros (_ & _ & H). specialize (H eq_refl).
    injection H as H. contradiction.
Qed.

(** X8: the validator of [Bootstrap] has one of three outcomes on every
    input.  It returns exactly when the contract over {v1, internal} does
    not reject; it raises [IndexError] exactly on the empty path and on "/"
    under a supported version; and it raises [InvalidParameterException]
    on every other input the contract rejects. *)
Theorem Bootstrap_api_validation_outcomes (v e : pyval) :
  (Bootstrap_validation._api_validation v e = Ok tt
   <-> contract_rejects Bootstrap_validation.valid_api_versions v e = false)
  /\ is_raise (Bootstrap_validation._api_validation v e) InvalidParameterException
     = contract_rejects Bootstrap_validation.valid_api_versions v e
       && negb (py_in_strs v Bootstrap_validation.valid_api_versions
                && short_endpoint e)
  /\ is_raise (Bootstrap_validation._api_validation v e) IndexError
     = py_in_strs v Bootstrap_validation.valid_api_versions && short_endpoint e.
Proof. apply api_validation_with_outcome. Qed.

(** X9: the two validators side by side.  Under "v1" and "internal" they
    give the same result on every endpoint.  Under "v2" the validator of
    [Bootstrap] raises [InvalidParameterException] on every endpoint, the
    empty path included, while the validator of [Connect] goes on to judge
    the endpoint.  Whatever [Bootstrap] accepts, [Connect] accepts. *)
Theorem Bootstrap_validation_stricter_than_Connect (v e : pyval) :
  (py_in_strs v Bootstrap_validation.valid_api_versions = true ->
   Bootstrap_validation._api_validation v e = Connect_validation._api_validation v e)
  /\ (Bootstrap_validation._api_validation (PStr "v2") e
      = Raise (invalid_parameter "Enter a valid API version ['v1', 'internal']."))
  /\ (Connect_validation._api_validation (PStr "v2") e
      = Connect_validation._api_validation (PStr "v1") e)
  /\ (Bootstrap_validation._api_validation v e = Ok tt ->
      Connect_validation._api_validation v e = Ok tt).
Proof.
  assert (Hsame : py_in_strs v Bootstrap_validation.valid_api_versions = true ->
                  Bootstrap_validation._api_validation v e
                  = Connect_validation._api_validation v e).
  { unfold Bootstrap_validation._api_validation, Connect_validation._api_validation,
      api_validation_with. intros Hv. rewrite Hv.
    assert (Hc : py_in_strs v Connect_validation.valid_api_versions = true).
    { unfold py_in_strs in *. cbn [existsb Bootstrap_validation.valid_api_versions
        Connect_validation.valid_api_versions] in *.
      repeat (apply orb_true_iff in Hv as [Hv|Hv]); rewrite ?Hv, ?orb_true_r;
        try reflexivity; discriminate. }
    now rewrite Hc. }
  split; [exact Hsame|]. split; [reflexivity|]. split; [reflexivity|].
  intros Hok. rewrite <- Hsame; [exact Hok|].
  unfold Bootstrap_validation._api_validation, api_validation_with in Hok.
  destruct (py_in_strs v Bootstrap_validation.valid_api_versions);
    [reflexivity|discriminate Hok].
Qed.

Lemma Bootstrap_validation_stricter_than_Connect_witness :
  Bootstrap_validation._api_validation (PStr "internal") (PStr "/cluster/me/bootstrap")
  = Connect_validation._api_validation (PStr "internal") (PStr "/cluster/me/bootstrap")
  /\ Connect_validation._api_validation (PStr "internal") (PStr "/cluster/me/bootstrap")
     = Ok tt.
Proof.
  destruct (Bootstrap_validation_stricter_than_Connect (PStr "internal")
              (PStr "/cluster/me/bootstrap")) as (Hsame & _ & _ & Hok).
  split; [exact (Hsame eq_refl)|exact (Hok eq_refl)].
Defined.

(** X10: accepted paths can be joined: when the validator accepts two
    endpoints under a version, it accepts the one followed by the other. *)
Theorem api_validation_accepts_concatenation
    (vs : list string) (txt : string) (v : pyval) (ep1 ep2 : string) :
  api_validation_with vs txt v (PStr ep1) = Ok tt ->
  api_validation_with vs txt v (PStr ep2) = Ok tt ->
  api_validation_with vs txt v (PStr (ep1 ++ ep2)) = Ok tt.
Proof.
  rewrite !api_validation_with_accepts.
  intros (Hv & Hf1 & _) (_ & Hf2 & Hl2).
  assert (Hne1 : ep1 <> "") by (intros ->; discriminate Hf1).
  assert (Hne2 : ep2 <> "") by (intros ->; discriminate Hf2).
  split; [exact Hv|]. split; [now rewrite first_char_app|].
  rewrite last_char_app by exact Hne2. intros Hl.
  destruct ep2 as [|a [|b r]]; [congruence| |].
  - specialize (Hl2 Hl). discriminate Hl2.
  - rewrite before_last_char_app by (cbn; lia). exact (Hl2 Hl).
Qed.

Lemma api_validation_accepts_concatenation_witness :
  Connect_validation._api_validation (PStr "v1")
    (PStr ("/fileset/snapshot" ++ "/browse?path=/")) = Ok tt.
Proof.
  apply (api_validation_accepts_concatenation Connect_validation.valid_api_versions
           "['v1', 'v2', 'internal']" (PStr "v1") "/fileset/snapshot" "/browse?path=/");
    reflexivity.
Defined.

(** The status endpoint, by the text of the request id in it. *)
Lemma status_endpoint_accepted (rid : string) :
  Bootstrap_validation._api_validation (PStr "internal")
    (PStr ("/cluster/me/bootstrap?request_id=" ++ rid)) = Ok tt
  <-> (last_char rid = Some "/"%char ->
       rid = "/" \/ before_last_char rid = Some "="%char).
Proof.
  unfold Bootstrap_validation._api_validation.
  rewrite api_validation_with_accepts.
  destruct rid as [|a [|b r]].
  - cbn. split; [intros _ H; discriminate H|intros _].
    repeat split. intros H. discriminate H.
  - change ("/cluster/me/bootstrap?request_id=" ++ String a "")
      with ("/cluster/me/bootstrap?request_id" ++ String "=" (String a "")).
    rewrite last_char_app by discriminate.
    rewrite before_last_char_app by (cbn; lia). cbn [last_char before_last_char].
    split.
    + intros _ [= ->]. now left.
    + intros _. repeat split.
  - rewrite last_char_app by discriminate.
    rewrite before_last_char_app by (cbn; lia).
    split.
    + intros (_ & _ & H) Hl. right. exact (H Hl).
    + intros H. repeat split. intros Hl. destruct (H Hl) as [Heq|Hb]; [discriminate Heq|exact Hb].
Qed.

(** X11: the endpoint [status] asks for passes the validator of [Bootstrap]
    under its version unless the text of the request id ends with "/" after
    a character that is not "="; an id that is empty or is "/" itself passes,
    the "=" of "request_id=" standing before it. *)
Theorem status_endpoint_validation
    (py_str : pyval -> string) (request_id : pyval) (r : reply) :
  match snd (status py_str request_id r) with
  | EvGet api_version api_endpoint _ _ =>
      Bootstrap_validation._api_validation (PStr api_version) (PStr api_endpoint)
      = Ok tt
      <-> (last_char (py_str request_id) = Some "/"%char ->
           py_str request_id = "/"
           \/ before_last_char (py_str request_id) = Some "="%char)
  | _ => False
  end.
Proof. cbn [status snd status_event]. apply status_endpoint_accepted. Qed.


(** ** More on the bootstrap configuration *)

Lemma list_or_default_ok (x default : pyval) (name : string) :
  list_or_default x default name =
  if none_or_list x
  then Ok (match x with PNone => default | _ => x end)
  else Raise (invalid_parameter
                ("You must provide a valid list for " ++ dq ++ name ++ dq ++ ".")).
Proof. now destruct x. Qed.

(** X12: the arguments are accepted exactly when [node_config] is a
    dictionary and each of [dns_search_domains], [dns_nameservers] and
    [ntp_servers] is [None] or a list. *)
Theorem bootstrap_config_accepts_iff (a : setup_args) :
  (exists config, bootstrap_config a = Ok config)
  <-> is_dict (node_config a) = true
      /\ none_or_list (dns_search_domains a) = true
      /\ none_or_list (dns_nameservers a) = true
      /\ none_or_list (ntp_servers a) = true.
Proof.
  unfold bootstrap_config. rewrite !list_or_default_ok.
  destruct (node_config a); cbn [is_dict];
    try (split; [intros [c H]; discriminate H|intros [H _]; discriminate H]).
  destruct (none_or_list (dns_search_domains a)); cbn [bind];
    [|split; [intros [c H]; discriminate H|intros (_ & H & _); discriminate H]].
  destruct (none_or_list (dns_nameservers a)); cbn [bind];
    [|split; [intros [c H]; discriminate H|intros (_ & _ & H & _); discriminate H]].
  destruct (none_or_list (ntp_servers a)); cbn [bind];
    [|split; [intros [c H]; discriminate H|intros (_ & _ & _ & H); discriminate H]].
  split; [auto|eauto].
Qed.

(** X13: arguments that are not accepted make [setup_cluster] raise an
    [InvalidParameterException] before any call is made, and the message
    names the first offending argument in the order node_config,
    dns_search_domains, dns_nameservers, ntp_servers. *)
Theorem setup_cluster_rejects_before_any_call
    (py_str : pyval -> string) (a : setup_args) (e : exn) (posts gets : list reply) :
  bootstrap_config a = Raise e ->
  setup_cluster py_str a posts gets = (Raised e, [])
  /\ exn_cls e = InvalidParameterException
  /\ exists name,
       exn_msg e = "You must provide a valid "
                   ++ (if is_dict (node_config a) then "list" else "dictionary")
                   ++ " for " ++ dq ++ name ++ dq ++ "."
       /\ name =
          if negb (is_dict (node_config a)) then "node_config"
          else if negb (none_or_list (dns_search_domains a)) then "dns_search_domains"
          else if negb (none_or_list (dns_nameservers a)) then "dns_nameservers"
          else "ntp_servers".
Proof.
  intros Hcfg. split; [unfold setup_cluster; now rewrite Hcfg|].
  revert Hcfg. unfold bootstrap_config. rewrite !list_or_default_ok.
  destruct (node_config a); cbn [is_dict negb];
    try (intros [= <-]; split; [reflexivity|exists "node_config"; split; reflexivity]).
  destruct (none_or_list (dns_search_domains a)); cbn [bind negb];
    [|intros [= <-]; split; [reflexivity|exists "dns_search_domains"; split; reflexivity]].
  destruct (none_or_list (dns_nameservers a)); cbn [bind negb];
    [|intros [= <-]; split; [reflexivity|exists "dns_nameservers"; split; reflexivity]].
  destruct (none_or_list (ntp_servers a)); cbn [bind negb];
    [discriminate|intros [= <-]; split; [reflexivity|exists "ntp_servers"; split; reflexivity]].
Qed.

Lemma setup_cluster_rejects_before_any_call_witness :
  exists e,
    setup_cluster py_str_scalar
      (mkArgs (PStr "c1") (PStr "admin@example.com") (PStr "secret") (PStr "10.0.0.1")
         (PStr "255.255.255.0") (PDict [("node1", PStr "1.2.3.4")]) (PBool true)
         PNone (PStr "8.8.8.8") (PInt 5) true (PInt 30))
      [Reply accepted_reply] [] = (Raised e, [])
    /\ exn_msg e = "You must provide a valid list for " ++ dq ++ "dns_nameservers" ++ dq ++ ".".
Proof.
  eexists. split.
  - apply setup_cluster_rejects_before_any_call. reflexivity.
  - reflexivity.
Defined.

(** The nodes configured are the nodes of [node_config], over what was there
    before. *)
Lemma node_configs_get_none (mask gw : pyval) (items acc : dict) (name : string) :
  dict_get name (node_configs mask gw items acc) = None
  <-> dict_get name items = None /\ dict_get name acc = None.
Proof.
  revert acc. induction items as [|[k ip] items IH]; intros acc;
    cbn [node_configs dict_get]; [tauto|].
  rewrite IH. destruct (String.eqb_spec name k) as [->|Hne].
  - rewrite dict_get_set_same.
    split; [intros [_ H]; discriminate H|intros [H _]; discriminate H].
  - now rewrite dict_get_set_other.
Qed.

(** X14: in an accepted configuration every scalar argument stands as it was
    given and the administrator's id is "admin"; a list the caller gave,
    empty or not, stands as it was given, and only an argument left at
    [None] takes its default: no search domain, the name server "8.8.8.8",
    the time server "pool.ntp.org". *)
Theorem bootstrap_config_fields (a : setup_args) (config : pyval) :
  bootstrap_config a = Ok config ->
  py_path config ["name"] = Ok (cluster_name a)
  /\ py_path config ["enableSoftwareEncryptionAtRest"] = Ok (enable_encryption a)
  /\ py_path config ["adminUserInfo"; "password"] = Ok (admin_password a)
  /\ py_path config ["adminUserInfo"; "emailAddress"] = Ok (admin_email a)
  /\ py_path config ["adminUserInfo"; "id"] = Ok (PStr "admin")
  /\ py_path config ["dnsSearchDomains"]
     = Ok (match dns_search_domains a with PNone => PList [] | given => given end)
  /\ py_path config ["dnsNameservers"]
     = Ok (match dns_nameservers a with
           | PNone => PList [PStr "8.8.8.8"]
           | given => given
           end)
  /\ py_path config ["ntpServers"]
     = Ok (match ntp_servers a with
           | PNone => PList [PStr "pool.ntp.org"]
           | given => given
           end)
  /\ exists items nodes,
       node_config a = PDict items /\ py_path config ["nodeConfigs"] = Ok (PDict nodes)
       /\ (forall name, dict_get name nodes = None <-> dict_get name items = None).
Proof.
  intros Hcfg.
  assert (Hnodes : exists items,
             node_config a = PDict items
             /\ py_path config ["nodeConfigs"]
                = Ok (PDict (node_configs (management_subnet_mask a)
                               (management_gateway a) items []))).
  { revert Hcfg. unfold bootstrap_config.
    destruct (node_config a) as [| | | | |items]; try discriminate.
    destruct (list_or_default (dns_search_domains a) _ _); [cbn [bind]|discriminate].
    destruct (list_or_default (dns_nameservers a) _ _); [cbn [bind]|discriminate].
    destruct (list_or_default (ntp_servers a) _ _); [cbn [bind]|discriminate].
    intros [= <-]. now exists items. }
  revert Hcfg. unfold bootstrap_config, list_or_default.
  destruct (node_config a) as [| | | | |items0]; try discriminate.
  destruct (dns_search_domains a); try discriminate;
    (destruct (dns_nameservers a); try discriminate;
     (destruct (ntp_servers a); try discriminate;
      (cbn [bind]; intros [= <-]; repeat (split; [reflexivity|])))).
  all: destruct Hnodes as (items & [= <-] & Hpath);
    exists items0; eexists; (split; [reflexivity|]); (split; [exact Hpath|]);
    intros name; rewrite node_configs_get_none; cbn; tauto.
Qed.

Lemma bootstrap_config_fields_witness :
  py_path (PDict
             [ ("enableSoftwareEncryptionAtRest", PBool false);
               ("name", PStr "c1");
               ("dnsNameservers", PList []);
               ("dnsSearchDomains", PList []);
               ("ntpServers", PList [PStr "pool.ntp.org"]);
               ("adminUserInfo",
                PDict [ ("password", PStr "secret");
                        ("emailAddress", PStr "admin@example.com");
                        ("id", PStr "admin") ]);
               ("nodeConfigs", PDict (node_configs PNone PNone [] [])) ])
    ["dnsNameservers"] = Ok (PList []).
Proof.
  exact (proj1 (proj2 (proj2 (proj2 (proj2 (proj2 (proj2
           (bootstrap_config_fields
              (mkArgs (PStr "c1") (PStr "admin@example.com") (PStr "secret") PNone PNone
                 (PDict []) (PBool false) PNone (PList []) PNone true (PInt 30))
              _ eq_refl)))))))).
Defined.

Lemma dict_set_fresh (k : string) (v : pyval) (d : dict) :
  dict_get k d = None -> dict_set k v d = (d ++ [(k, v)])%list.
Proof.
  induction d as [|[k' v'] d IH]; cbn; [reflexivity|].
  destruct (String.eqb k k'); [discriminate|]. intros H. now rewrite IH.
Qed.

Lemma dict_get_snoc_other (k k' : string) (v : pyval) (d : dict) :
  k <> k' -> dict_get k (d ++ [(k', v)])%list = dict_get k d.
Proof.
  intros Hne. apply String.eqb_neq in Hne.
  induction d as [|[k'' v''] d IH]; cbn; [now rewrite Hne|].
  destruct (String.eqb k k''); [reflexivity|exact IH].
Qed.

Lemma node_configs_fresh (mask gw : pyval) (items acc : dict) :
  NoDup (map fst items) ->
  (forall k, In k (map fst items) -> dict_get k acc = None) ->
  node_configs mask gw items acc = (acc ++ map (node_item mask gw) items)%list.
Proof.
  revert acc. induction items as [|[k ip] items IH]; intros acc Hnd Hfresh.
  - cbn. now rewrite app_nil_r.
  - cbn [node_configs map]. cbn in Hnd. inversion Hnd as [|? ? Hk Hnd']; subst.
    rewrite dict_set_fresh by (apply Hfresh; now left).
    rewrite IH; [now rewrite <- app_assoc| exact Hnd' |].
    intros k' Hin. rewrite dict_get_snoc_other.
    + apply Hfresh. now right.
    + intros ->. contradiction.
Qed.

(** X15: the nodes of the configuration are the nodes of [node_config], in
    its order, each with the supplied subnet mask and gateway and its own
    address, and nothing else. *)
Theorem bootstrap_config_node_configs
    (a : setup_args) (config : pyval) (items : dict) :
  node_config a = PDict items -> NoDup (map fst items) ->
  bootstrap_config a = Ok config ->
  py_path config ["nodeConfigs"]
  = Ok (PDict (map (node_item (management_subnet_mask a) (management_gateway a))
                 items)).
Proof.
  intros Hnc Hnd. unfold bootstrap_config. rewrite Hnc.
  destruct (list_or_default (dns_search_domains a) _ _); [cbn [bind]|discriminate].
  destruct (list_or_default (dns_nameservers a) _ _); [cbn [bind]|discriminate].
  destruct (list_or_default (ntp_servers a) _ _); [cbn [bind]|discriminate].
  intros [= <-]. cbn [py_path py_getitem dict_get String.eqb Ascii.eqb Bool.eqb bind].
  rewrite node_configs_fresh by (auto; exact Hnd). reflexivity.
Qed.

Lemma bootstrap_config_node_configs_witness :
  py_path (PDict
             [ ("enableSoftwareEncryptionAtRest", PBool true);
               ("name", PStr "c1");
               ("dnsNameservers", PList [PStr "8.8.8.8"]);
               ("dnsSearchDomains", PList []);
               ("ntpServers", PList [PStr "pool.ntp.org"]);
               ("adminUserInfo",
                PDict [ ("password", PStr "secret");
                        ("emailAddress", PStr "admin@example.com");
                        ("id", PStr "admin") ]);
               ("nodeConfigs",
                PDict (node_configs (PStr "255.255.255.0") (PStr "10.0.0.1")
                         [("node1", PStr "1.2.3.4"); ("node2", PStr "1.2.3.5")] [])) ])
    ["nodeConfigs"]
  = Ok (PDict (map (node_item (PStr "255.255.255.0") (PStr "10.0.0.1"))
                 [("node1", PStr "1.2.3.4"); ("node2", PStr "1.2.3.5")])).
Proof.
  apply (bootstrap_config_node_configs
           (with_node_config sample_args
              (PDict [("node1", PStr "1.2.3.4"); ("node2", PStr "1.2.3.5")]))
           _ [("node1", PStr "1.2.3.4"); ("node2", PStr "1.2.3.5")]).
  - reflexivity.
  - repeat constructor; cbn; intuition discriminate.
  - reflexivity.
Defined.

(** ** More on the workflow *)

Section Runs.

Variable py_str : pyval -> string.

(** Where [setup_cluster] stands once the submission loop has ended. *)
Lemma setup_cluster_after_submit (a : setup_args) (config : pyval)
    (posts gets : list reply) :
  bootstrap_config a = Ok config ->
  setup_cluster py_str a posts gets =
  match fst (submit config (timeout a) posts) with
  | Stopped o => (o, snd (submit config (timeout a) posts))
  | Accepted api_request =>
      match py_getitem api_request "id" with
      | Raise e => (Raised e, snd (submit config (timeout a) posts))
      | Ok request_id =>
          if wait_for_completion a then
            (fst (poll py_str request_id gets),
             (snd (submit config (timeout a) posts)
              ++ snd (poll py_str request_id gets))%list)
          else (Returned api_request, snd (submit config (timeout a) posts))
      end
  end.
Proof.
  intros Hcfg. unfold setup_cluster. rewrite Hcfg.
  destruct (submit config (timeout a) posts) as [[api_request|o] tr]; cbn [fst snd];
    [|reflexivity].
  destruct (py_getitem api_request "id") as [request_id|e]; [|reflexivity].
  destruct (wait_for_completion a); [|reflexivity].
  now destruct (poll py_str request_id gets).
Qed.

(** X16: a refused attempt leaves nothing behind: the run on refused
    attempts followed by further replies is the run on the further replies,
    with one POST and one 30-second sleep in front for each refusal. *)
Theorem setup_cluster_forgets_refusals
    (a : setup_args) (config : pyval) (pre rest gets : list reply) :
  bootstrap_config a = Ok config ->
  forallb refused pre = true ->
  setup_cluster py_str a (pre ++ rest)%list gets
  = (fst (setup_cluster py_str a rest gets),
     (retry_trace config (timeout a) pre
      ++ snd (setup_cluster py_str a rest gets))%list).
Proof.
  intros Hcfg Hpre.
  rewrite !(setup_cluster_after_submit a config) by exact Hcfg.
  rewrite (submit_refused _ _ _ _ Hpre). cbn [fst snd].
  destruct (fst (submit config (timeout a) rest)) as [api_request|o]; [|reflexivity].
  destruct (py_getitem api_request "id") as [request_id|e]; [|reflexivity].
  destruct (wait_for_completion a); [|reflexivity].
  cbn [fst snd]. now rewrite app_assoc.
Qed.

(** X17: without [wait_for_completion], an accepted POST whose reply holds
    an id ends the run: [setup_cluster] returns the reply as it came and
    never asks for the status. *)
Theorem setup_cluster_without_waiting
    (a : setup_args) (config api_request request_id : pyval)
    (pre rest gets : list reply) :
  bootstrap_config a = Ok config ->
  wait_for_completion a = false ->
  forallb refused pre = true ->
  py_getitem api_request "id" = Ok request_id ->
  setup_cluster py_str a (pre ++ Reply api_request :: rest)%list gets
  = (Returned api_request,
     (retry_trace config (timeout a) pre ++ [post_event config (timeout a)])%list).
Proof.
  intros Hcfg Hwait Hpre Hid.
  rewrite (setup_cluster_after_submit a config) by exact Hcfg.
  rewrite (submit_refused _ _ _ _ Hpre). cbn [submit fst snd].
  now rewrite Hid, Hwait.
Qed.

(** X18: an accepted POST whose reply holds no id makes [setup_cluster]
    raise, with or without [wait_for_completion]: [KeyError] for a
    dictionary without the key, [TypeError] for a reply that is not a
    dictionary; the POST has been made by then. *)
Theorem setup_cluster_reply_without_id
    (a : setup_args) (config api_request : pyval) (e : exn)
    (pre rest gets : list reply) :
  bootstrap_config a = Ok config ->
  forallb refused pre = true ->
  py_getitem api_request "id" = Raise e ->
  setup_cluster py_str a (pre ++ Reply api_request :: rest)%list gets
  = (Raised e,
     (retry_trace config (timeout a) pre ++ [post_event config (timeout a)])%list)
  /\ exn_cls e = (if is_dict api_request then KeyError else TypeError).
Proof.
  intros Hcfg Hpre Hid. split.
  - rewrite (setup_cluster_after_submit a config) by exact Hcfg.
    rewrite (submit_refused _ _ _ _ Hpre). cbn [submit fst snd].
    now rewrite Hid.
  - revert Hid. unfold py_getitem.
    destruct api_request as [| | | | |d]; try (now intros [= <-]).
    cbn [is_dict]. destruct (dict_get "id" d); [discriminate|now intros [= <-]].
Qed.

(** X19: an exception of the POST that is not an [APICallException]
    reaches the caller as it is, at its first occurrence, whatever its
    text says. *)
Theorem setup_cluster_post_exception_propagates
    (a : setup_args) (config : pyval) (e : exn) (pre rest gets : list reply) :
  bootstrap_config a = Ok config ->
  forallb refused pre = true ->
  exn_cls e <> APICallException ->
  setup_cluster py_str a (pre ++ Fail e :: rest)%list gets
  = (Raised e,
     (retry_trace config (timeout a) pre ++ [post_event config (timeout a)])%list).
Proof.
  intros Hcfg Hpre Hcls.
  rewrite (setup_cluster_after_submit a config) by exact Hcfg.
  rewrite (submit_refused _ _ _ _ Hpre). cbn [submit].
  destruct (exn_class_eqb (exn_cls e) APICallException) eqn:Heq; [|reflexivity].
  destruct (exn_cls e); discriminate Heq || now destruct Hcls.
Qed.

(** X20: the polling loop has no bound: while the status reads IN_PROGRESS
    the run goes on, one GET and one 30-second sleep for each payload,
    however many there are. *)
Theorem setup_cluster_polls_without_bound
    (a : setup_args) (config api_request request_id : pyval)
    (posts : list reply) (pre : list pyval) :
  bootstrap_config a = Ok config ->
  wait_for_completion a = true ->
  py_getitem api_request "id" = Ok request_id ->
  forallb in_progress pre = true ->
  setup_cluster py_str a (Reply api_request :: posts) (map Reply pre)
  = (Pending, post_event config (timeout a) :: wait_trace py_str request_id pre)
  /\ count_events is_get
       (snd (setup_cluster py_str a (Reply api_request :: posts) (map Reply pre)))
     = List.length pre.
Proof.
  intros Hcfg Hwait Hid Hpre.
  assert (Hrun : setup_cluster py_str a (Reply api_request :: posts) (map Reply pre)
                 = (Pending,
                    post_event config (timeout a) :: wait_trace py_str request_id pre)).
  { rewrite (setup_cluster_after_submit a config) by exact Hcfg.
    cbn [submit fst snd]. rewrite Hid, Hwait.
    rewrite <- (app_nil_r (map Reply pre)), (poll_in_progress _ _ _ _ Hpre).
    cbn. now rewrite app_nil_r. }
  rewrite Hrun. split; [reflexivity|]. cbn [snd].
  change (count_events is_get (wait_trace py_str request_id pre) = List.length pre).
  apply count_wait_trace.
Qed.

(** X21: an exception of the status GET reaches the caller as it is, and
    ends the polling at that GET. *)
Theorem setup_cluster_status_exception_propagates
    (a : setup_args) (config api_request request_id : pyval) (e : exn)
    (posts : list reply) (pre : list pyval) (rest : list reply) :
  bootstrap_config a = Ok config ->
  wait_for_completion a = true ->
  py_getitem api_request "id" = Ok request_id ->
  forallb in_progress pre = true ->
  setup_cluster py_str a (Reply api_request :: posts)
    (map Reply pre ++ Fail e :: rest)%list
  = (Raised e,
     (post_event config (timeout a)
      :: wait_trace py_str request_id pre ++ [status_event py_str request_id])%list).
Proof.
  intros Hcfg Hwait Hid Hpre.
  rewrite (setup_cluster_after_submit a config) by exact Hcfg.
  cbn [submit fst snd]. rewrite Hid, Hwait, (poll_in_progress _ _ _ _ Hpre).
  reflexivity.
Qed.

(** X22: a status payload out of shape makes the run raise the error of the
    subscription that fails: without a status field, the error of
    [payload["status"]], a [KeyError] for a dictionary and a [TypeError] for
    anything else; with status FAILURE or FAILED and no message field, the
    [KeyError] of [payload["message"]], where a [RubrikException] was
    due. *)
Theorem setup_cluster_malformed_status
    (a : setup_args) (config api_request request_id : pyval)
    (posts : list reply) (pre : list pyval) (payload : pyval) (rest : list reply) :
  bootstrap_config a = Ok config ->
  wait_for_completion a = true ->
  py_getitem api_request "id" = Ok request_id ->
  forallb in_progress pre = true ->
  let run := setup_cluster py_str a (Reply api_request :: posts)
               (map Reply pre ++ Reply payload :: rest)%list in
  (has_status payload = false ->
   exists e,
     py_getitem payload "status" = Raise e
     /\ fst run = Raised e
     /\ exn_cls e = (if is_dict payload then KeyError else TypeError))
  /\ (failed payload = true ->
      (forall message, py_getitem payload "message" <> Ok message) ->
      exists e,
        py_getitem payload "message" = Raise e
        /\ fst run = Raised e
        /\ exn_cls e = KeyError).
Proof.
  intros Hcfg Hwait Hid Hpre run.
  assert (Hrun : fst run = fst (poll py_str request_id (Reply payload :: rest))).
  { subst run. rewrite (setup_cluster_after_submit a config) by exact Hcfg.
    cbn [submit fst snd]. now rewrite Hid, Hwait, (poll_in_progress _ _ _ _ Hpre). }
  rewrite Hrun. cbn [poll status]. unfold has_status, failed, status_is.
  split.
  - destruct (py_getitem payload "status") as [st|e] eqn:Hst; [discriminate|].
    intros _. exists e. split; [reflexivity|]. split; [reflexivity|].
    revert Hst. unfold py_getitem.
    destruct payload as [| | | | |d]; try (now intros [= <-]).
    cbn [is_dict]. destruct (dict_get "status" d); [discriminate|now intros [= <-]].
  - destruct (py_getitem payload "status") as [st|] eqn:Hst; [|discriminate].
    intros Hfailed Hmsg. rewrite Hfailed.
    assert (Hnot : py_eq_str st "IN_PROGRESS" = false).
    { destruct st as [| | |tag| |]; try reflexivity. cbn [py_eq_str] in *.
      apply orb_true_iff in Hfailed as [H|H]; apply String.eqb_eq in H; now subst. }
    rewrite Hnot.
    destruct (py_getitem payload "message") as [m|e] eqn:Hm; [now destruct (Hmsg m)|].
    exists e. split; [reflexivity|]. split; [reflexivity|].
    revert Hst Hm. unfold py_getitem.
    destruct payload as [| | | | |d]; try discriminate.
    intros _. destruct (dict_get "message" d); [discriminate|now intros [= <-]].
Qed.

(** *** What every run has in common *)

Lemma submit_calls (config tmo : pyval) (posts : list reply) :
  Forall (fun e => e = post_event config tmo \/ e = EvSleep 30)
    (snd (submit config tmo posts)).
Proof.
  induction posts as [|r posts IH]; cbn [submit]; [constructor|].
  destruct r as [body|e]; [repeat constructor|].
  destruct (exn_class_eqb _ _); [|repeat constructor].
  destruct (str_contains connection_refused _).
  - cbn [Z.add Z.eqb Pos.add Pos.succ Pos.eqb].
    destruct (submit config tmo posts) as [s tr]. cbn [snd] in *.
    constructor; [now left|]. constructor; [now right|exact IH].
  - destruct (str_contains already_bootstrapped _); repeat constructor.
Qed.

Lemma poll_calls (request_id : pyval) (gets : list reply) :
  Forall (fun e => e = status_event py_str request_id \/ e = EvSleep 30)
    (snd (poll py_str request_id gets)).
Proof.
  induction gets as [|r gets IH]; cbn [poll status]; [constructor|].
  destruct r as [payload|e]; [|repeat constructor].
  destruct (py_getitem payload "status") as [st|]; [|repeat constructor].
  destruct (py_eq_str st "IN_PROGRESS").
  - destruct (poll py_str request_id gets) as [o tr]. cbn [snd] in *.
    constructor; [now left|]. constructor; [now right|exact IH].
  - destruct (py_eq_str st "FAILURE" || py_eq_str st "FAILED"); [|repeat constructor].
    destruct (py_getitem payload "message"); repeat constructor.
Qed.

Lemma submit_accepted (config tmo : pyval) (posts : list reply) (api_request : pyval) :
  fst (submit config tmo posts) = Accepted api_request -> In (Reply api_request) posts.
Proof.
  induction posts as [|r posts IH]; cbn [submit]; [discriminate|].
  destruct r as [body|e]; [intros [= ->]; now left|].
  destruct (exn_class_eqb _ _); [|discriminate].
  destruct (str_contains connection_refused _).
  - cbn [Z.add Z.eqb Pos.add Pos.succ Pos.eqb].
    destruct (submit config tmo posts) as [s tr]. cbn [fst] in *.
    intros H. right. now apply IH.
  - destruct (str_contains already_bootstrapped _); discriminate.
Qed.

Lemma submit_stopped (config tmo : pyval) (posts : list reply) (o : outcome) :
  fst (submit config tmo posts) = Stopped o ->
  match o with
  | Returned v => v = PStr no_change_required
  | Raised _ => True
  | Pending => forallb refused posts = true
  end.
Proof.
  induction posts as [|r posts IH]; cbn [submit].
  - now intros [= <-].
  - destruct r as [body|e]; [discriminate|]. cbn [forallb refused].
    destruct (exn_class_eqb _ _); [|now intros [= <-]].
    destruct (str_contains connection_refused _).
    + cbn [Z.add Z.eqb Pos.add Pos.succ Pos.eqb andb].
      destruct (submit config tmo posts) as [s tr]. cbn [fst] in *. exact IH.
    + destruct (str_contains already_bootstrapped _); now intros [= <-].
Qed.

Lemma poll_outcome (request_id : pyval) (gets : list reply) :
  match fst (poll py_str request_id gets) with
  | Returned v =>
      In (Reply v) gets
      /\ has_status v = true /\ in_progress v = false /\ failed v = false
  | Raised _ => True
  | Pending => forallb reply_in_progress gets = true
  end.
Proof.
  induction gets as [|r gets IH]; cbn [poll status]; [reflexivity|].
  destruct r as [payload|e]; [|exact I].
  cbn [forallb reply_in_progress]. unfold in_progress, failed, has_status, status_is in *.
  destruct (py_getitem payload "status") as [st|] eqn:Hst; [|exact I].
  destruct (py_eq_str st "IN_PROGRESS") eqn:Hip.
  - destruct (poll py_str request_id gets) as [o tr]. cbn [fst andb] in *.
    destruct o as [v| |]; [|exact I|exact IH].
    destruct IH as (Hin & Hrest). split; [now right|exact Hrest].
  - destruct (py_eq_str st "FAILURE" || py_eq_str st "FAILED") eqn:Hf.
    + now destruct (py_getitem payload "message").
    + cbn [fst]. rewrite Hst, Hip, Hf. repeat split. now left.
Qed.

(** X23: every call of a run is one the source writes: each POST goes to
    "/cluster/me/bootstrap" on "internal", unauthenticated, with the one
    configuration built from the arguments and the caller's timeout; each
    GET goes to the status endpoint on "internal", unauthenticated, with
    timeout 15; every sleep lasts 30 seconds. *)
Theorem setup_cluster_calls
    (a : setup_args) (config : pyval) (posts gets : list reply) :
  bootstrap_config a = Ok config ->
  Forall (call_ok config (timeout a)) (snd (setup_cluster py_str a posts gets)).
Proof.
  intros Hcfg.
  assert (Hposts : Forall (call_ok config (timeout a))
                     (snd (submit config (timeout a) posts))).
  { eapply Forall_impl; [|apply submit_calls].
    intros e [->| ->]; cbn; auto. }
  assert (Hgets : forall rid, Forall (call_ok config (timeout a))
                                (snd (poll py_str rid gets))).
  { intros rid. eapply Forall_impl; [|apply poll_calls].
    intros e [->| ->]; [|reflexivity].
    unfold status_event, call_ok. split; [reflexivity|].
    split; [|split; reflexivity]. apply prefix_app. eauto. }
  rewrite (setup_cluster_after_submit a config) by exact Hcfg.
  destruct (fst (submit config (timeout a) posts)) as [api_request|o]; [|exact Hposts].
  destruct (py_getitem api_request "id") as [request_id|e]; [|exact Hposts].
  destruct (wait_for_completion a); [|exact Hposts].
  cbn [snd]. apply Forall_app. split; [exact Hposts|apply Hgets].
Qed.



(** X26: a run is left waiting only by refusals or by payloads in progress:
    when the replies are used up and the run has neither returned nor
    raised, either every POST was refused, or a POST was accepted and every
    status payload read IN_PROGRESS. *)
Theorem setup_cluster_pending
    (a : setup_args) (posts gets : list reply) :
  fst (setup_cluster py_str a posts gets) = Pending ->
  forallb refused posts = true
  \/ (wait_for_completion a = true
      /\ (exists api_request, In (Reply api_request) posts)
      /\ forallb reply_in_progress gets = true).
Proof.
  destruct (bootstrap_config a) as [config|e] eqn:Hcfg.
  2:{ unfold setup_cluster. rewrite Hcfg. discriminate. }
  rewrite (setup_cluster_after_submit a config) by exact Hcfg.
  destruct (fst (submit config (timeout a) posts)) as [api_request|o] eqn:Hfst.
  - apply submit_accepted in Hfst.
    destruct (py_getitem api_request "id") as [request_id|e]; [|discriminate].
    destruct (wait_for_completion a); [|discriminate]. cbn [fst].
    intros Hp. right. split; [reflexivity|]. split; [eauto|].
    pose proof (poll_outcome request_id gets) as H. now rewrite Hp in H.
  - cbn [fst]. intros ->. left. exact (submit_stopped _ _ _ _ Hfst).
Qed.

End Runs.

Lemma setup_cluster_calls_witness :
  Forall (call_ok
            (PDict
               [ ("enableSoftwareEncryptionAtRest", PBool true);
                 ("name", PStr "c1");
                 ("dnsNameservers", PList [PStr "8.8.8.8"]);
                 ("dnsSearchDomains", PList []);
                 ("ntpServers", PList [PStr "pool.ntp.org"]);
                 ("adminUserInfo",
                  PDict [ ("password", PStr "secret");
                          ("emailAddress", PStr "admin@example.com");
                          ("id", PStr "admin") ]);
                 ("nodeConfigs",
                  PDict [ ("node1",
                           PDict [ ("managementIpConfig",
                                    PDict [ ("netmask", PStr "255.255.255.0");
                                            ("gateway", PStr "10.0.0.1");
                                            ("address", PStr "1.2.3.4") ]) ]) ]) ])
            (PInt 30))
    (snd (setup_cluster py_str_scalar sample_args
            [Fail refused_error; Reply accepted_reply]
            [Reply (payload_of "IN_PROGRESS"); Reply (payload_of "SUCCESS")])).
Proof.
  exact (setup_cluster_calls py_str_scalar sample_args _
           [Fail refused_error; Reply accepted_reply]
           [Reply (payload_of "IN_PROGRESS"); Reply (payload_of "SUCCESS")] eq_refl).
Defined.

Lemma setup_cluster_forgets_refusals_witness :
  fst (setup_cluster py_str_scalar sample_args
         [Fail refused_error; Fail refused_error; Reply accepted_reply]
         [Reply (payload_of "SUCCESS")])
  = fst (setup_cluster py_str_scalar sample_args [Reply accepted_reply]
           [Reply (payload_of "SUCCESS")]).
Proof.
  exact (f_equal fst
           (setup_cluster_forgets_refusals py_str_scalar sample_args _
              [Fail refused_error; Fail refused_error] [Reply accepted_reply]
              [Reply (payload_of "SUCCESS")] eq_refl eq_refl)).
Defined.

Lemma setup_cluster_without_waiting_witness :
  fst (setup_cluster py_str_scalar sample_args_no_wait
         [Fail refused_error; Reply accepted_reply] [Reply failure_payload])
  = Returned accepted_reply.
Proof.
  exact (f_equal fst
           (setup_cluster_without_waiting py_str_scalar sample_args_no_wait _
              accepted_reply (PStr "1") [Fail refused_error] [] [Reply failure_payload]
              eq_refl eq_refl eq_refl eq_refl)).
Defined.

Lemma setup_cluster_reply_without_id_witness :
  fst (setup_cluster py_str_scalar sample_args_no_wait
         [Reply (PDict [("status", PStr "OK")])] [])
  = Raised (Exn KeyError "'id'").
Proof.
  exact (f_equal fst
           (proj1 (setup_cluster_reply_without_id py_str_scalar sample_args_no_wait _
                     (PDict [("status", PStr "OK")]) _ [] [] [] eq_refl eq_refl eq_refl))).
Defined.

Lemma setup_cluster_post_exception_propagates_witness :
  fst (setup_cluster py_str_scalar sample_args
         [Fail (Exn TypeError connection_refused); Reply accepted_reply] [])
  = Raised (Exn TypeError connection_refused).
Proof.
  refine (f_equal fst
            (setup_cluster_post_exception_propagates py_str_scalar sample_args _
               (Exn TypeError connection_refused) [] [Reply accepted_reply] []
               eq_refl eq_refl _)).
  discriminate.
Defined.

Lemma setup_cluster_polls_without_bound_witness :
  let run := setup_cluster py_str_scalar sample_args [Reply accepted_reply]
               (map Reply (repeat (payload_of "IN_PROGRESS") 100)) in
  fst run = Pending /\ count_events is_get (snd run) = 100%nat.
Proof.
  destruct (setup_cluster_polls_without_bound py_str_scalar sample_args _ accepted_reply
              (PStr "1") [] (repeat (payload_of "IN_PROGRESS") 100)
              eq_refl eq_refl eq_refl eq_refl) as (Hrun & Hgets).
  split; [exact (f_equal fst Hrun)|exact Hgets].
Defined.

Lemma setup_cluster_status_exception_propagates_witness :
  fst (setup_cluster py_str_scalar sample_args [Reply accepted_reply]
         [Reply (payload_of "IN_PROGRESS"); Fail timeout_error;
          Reply (payload_of "SUCCESS")])
  = Raised timeout_error.
Proof.
  exact (f_equal fst
           (setup_cluster_status_exception_propagates py_str_scalar sample_args _
              accepted_reply (PStr "1") timeout_error [] [payload_of "IN_PROGRESS"]
              [Reply (payload_of "SUCCESS")] eq_refl eq_refl eq_refl eq_refl)).
Defined.

Lemma setup_cluster_malformed_status_witness :
  raises KeyError
    (fst (setup_cluster py_str_scalar sample_args [Reply accepted_reply]
            [Reply (payload_of "FAILED")])) = true
  /\ raises TypeError
       (fst (setup_cluster py_str_scalar sample_args [Reply accepted_reply]
               [Reply (PList [])])) = true.
Proof.
  split.
  - destruct (proj2 (setup_cluster_malformed_status py_str_scalar sample_args _
                       accepted_reply (PStr "1") [] [] (payload_of "FAILED") []
                       eq_refl eq_refl eq_refl eq_refl) eq_refl)
      as (e & _ & Hrun & Hcls).
    + intros message H. discriminate H.
    + refine (eq_trans (f_equal (raises KeyError) Hrun) _). cbn. now rewrite Hcls.
  - destruct (proj1 (setup_cluster_malformed_status py_str_scalar sample_args _
                       accepted_reply (PStr "1") [] [] (PList []) []
                       eq_refl eq_refl eq_refl eq_refl) eq_refl)
      as (e & _ & Hrun & Hcls).
    refine (eq_trans (f_equal (raises TypeError) Hrun) _). cbn. now rewrite Hcls.
Defined.



Lemma setup_cluster_pending_witness :
  forallb refused [Fail refused_error; Fail refused_error] = true
  \/ (wait_for_completion sample_args = true
      /\ (exists api_request,
            In (Reply api_request) [Fail refused_error; Fail refused_error])
      /\ forallb reply_in_progress [] = true).
Proof.
  exact (setup_cluster_pending py_str_scalar sample_args
           [Fail refused_error; Fail refused_error] [] eq_refl).
Defined.
